(** * Chit Chats MCP server: transport client, parameter validation and
    tool dispatch.

    Shallow embedding of [src/client.ts] (ChitChatsClient), [src/schemas.ts]
    (the zod schemas), the tool handlers of [src/tools/*.ts] and the
    [CallToolRequestSchema] handler of [src/index.ts].

    Modelling conventions.
    - JavaScript values reachable from JSON are [jsval]; [JUndef] stands for
      [undefined] (an absent property).  JSON numbers are modelled as
      integers ([Z]); every number the handlers and the schemas use is
      integral.
    - Asynchronous code with [fetch] is a small free monad [io]: a program
      either returns, throws an [Error] with a message, or performs one
      [fetch] and continues with its outcome.  [run] executes a program
      against a remote endpoint given as a function from requests to
      outcomes and records every request sent. *)

From Stdlib Require Import String Ascii ZArith List Bool Lia.
Import ListNotations.
Open Scope string_scope.
Open Scope Z_scope.

(** ** JavaScript values *)

#[local] Set Warnings "-register-all".

Inductive jsval : Type :=
| JUndef
| JNull
| JBool (b : bool)
| JNum (n : Z)
| JStr (s : string)
| JArr (l : list jsval)
| JObj (fields : list (string * jsval)).

(** Property lookup on an object literal: the first binding wins. *)
Fixpoint assoc_get (k : string) (l : list (string * jsval)) : jsval :=
  match l with
  | [] => JUndef
  | (k', v) :: l' => if String.eqb k k' then v else assoc_get k l'
  end.

(** [Boolean(v)]: JavaScript truthiness. *)
Definition truthy (v : jsval) : bool :=
  match v with
  | JUndef | JNull => false
  | JBool b => b
  | JNum n => negb (n =? 0)
  | JStr s => negb (String.eqb s "")
  | JArr _ | JObj _ => true
  end.

(** [a || b] on values. *)
Definition js_or (a b : jsval) : jsval := if truthy a then a else b.

(** Decimal rendering of an integer, as [Number.prototype.toString]. *)
Fixpoint digits_aux (fuel : nat) (n : Z) (acc : string) : string :=
  match fuel with
  | O => acc
  | S f =>
      let acc' := String (ascii_of_nat (48 + Z.to_nat (n mod 10))) acc in
      if n / 10 =? 0 then acc' else digits_aux f (n / 10) acc'
  end.

Definition z_to_string (n : Z) : string :=
  if n <? 0 then "-" ++ digits_aux (S (Z.to_nat (Z.log2 (- n)))) (- n) ""
  else digits_aux (S (Z.to_nat (Z.log2 n))) n "".

(** [String(v)], the conversion done by a template literal [`${v}`]:
    arrays are joined with "," (null and undefined elements print
    as the empty string), objects print as "[object Object]". *)
Fixpoint to_str (v : jsval) : string :=
  match v with
  | JUndef => "undefined"
  | JNull => "null"
  | JBool true => "true"
  | JBool false => "false"
  | JNum n => z_to_string n
  | JStr s => s
  | JArr l =>
      let fix go (l : list jsval) : list string :=
        match l with
        | [] => []
        | x :: l' =>
            (match x with JUndef | JNull => "" | _ => to_str x end) :: go l'
        end in
      String.concat "," (go l)
  | JObj _ => "[object Object]"
  end.

(** ** Programs with [fetch] and exceptions *)

(** The outcome of [await response.json()]: a parsed value, or the message
    of the [SyntaxError] it throws on a malformed (or empty) body. *)
Inductive body : Type :=
| BodyJson (v : jsval)
| BodyInvalid (msg : string).

(** The outcome of [await fetch(...)]: a response (status, the value of
    [headers.get("Retry-After")], and its body), or a rejection with an
    [Error] whose message is given. *)
Inductive fetch_result : Type :=
| Responded (status : Z) (retry_after : option string) (b : body)
| Rejected (msg : string).

(** A request as handed to [fetch]; the body is the object that is
    serialised with [JSON.stringify]. *)
Record request : Type := mk_request {
  rq_url : string;
  rq_method : string;
  rq_headers : list (string * string);
  rq_body : option jsval
}.

Inductive io (A : Type) : Type :=
| Ret (a : A)
| Throw (msg : string)
| Fetch (r : request) (k : fetch_result -> io A).

Arguments Ret {A} a.
Arguments Throw {A} msg.
Arguments Fetch {A} r k.

Fixpoint bind {A B} (m : io A) (f : A -> io B) : io B :=
  match m with
  | Ret a => f a
  | Throw e => Throw e
  | Fetch r k => Fetch r (fun x => bind (k x) f)
  end.

Notation "x <- m ;; k" := (bind m (fun x => k))
  (at level 61, m at next level, right associativity).

(** [try { m } catch (err) { h(err.message) }]: every exception raised in
    this model is an [Error] instance. *)
Fixpoint catch_io {A} (m : io A) (h : string -> io A) : io A :=
  match m with
  | Ret a => Ret a
  | Throw e => h e
  | Fetch r k => Fetch r (fun x => catch_io (k x) h)
  end.

(** Final outcome of a program: a value, or an uncaught exception. *)
Inductive outcome (A : Type) : Type :=
| Done (a : A)
| Raised (msg : string).

Arguments Done {A} a.
Arguments Raised {A} msg.

(** Execution against a remote endpoint: the requests sent, in order, and
    the outcome. *)
Fixpoint run {A} (remote : request -> fetch_result) (m : io A)
  : list request * outcome A :=
  match m with
  | Ret a => ([], Done a)
  | Throw e => ([], Raised e)
  | Fetch r k =>
      let '(rs, o) := run remote (k (remote r)) in (r :: rs, o)
  end.

(** Property access [v.k]; reading a property of [undefined] or [null]
    throws a [TypeError]. Strings and arrays have a [length]. *)
Definition get (v : jsval) (k : string) : io jsval :=
  match v with
  | JUndef =>
      Throw ("Cannot read properties of undefined (reading '" ++ k ++ "')")
  | JNull =>
      Throw ("Cannot read properties of null (reading '" ++ k ++ "')")
  | JObj fs => Ret (assoc_get k fs)
  | JStr s =>
      Ret (if String.eqb k "length" then JNum (Z.of_nat (String.length s))
           else JUndef)
  | JArr l =>
      Ret (if String.eqb k "length" then JNum (Z.of_nat (List.length l))
           else JUndef)
  | _ => Ret JUndef
  end.

(** Optional chaining [v?.k]. *)
Definition oget (v : jsval) (k : string) : jsval :=
  match v with
  | JUndef | JNull => JUndef
  | JObj fs => assoc_get k fs
  | JStr s =>
      if String.eqb k "length" then JNum (Z.of_nat (String.length s))
      else JUndef
  | JArr l =>
      if String.eqb k "length" then JNum (Z.of_nat (List.length l))
      else JUndef
  | _ => JUndef
  end.

(** ** Configuration and the transport client ([src/client.ts]) *)

(** [process.env] after [dotenv]'s [config()]. *)
Record env : Type := mk_env {
  CHITCHATS_CLIENT_ID : option string;
  CHITCHATS_ACCESS_TOKEN : option string;
  CHITCHATS_BASE_URL : option string
}.

(** [s || d] for a possibly undefined string. *)
Definition str_or (s : option string) (d : string) : string :=
  match s with
  | Some x => if String.eqb x "" then d else x
  | None => d
  end.

(** [`${s}`] for a possibly undefined string. *)
Definition str_templ (s : option string) : string :=
  match s with Some x => x | None => "undefined" end.

Definition BASE_URL (e : env) : string :=
  str_or (CHITCHATS_BASE_URL e) "https://chitchats.com".

(** The module-level check: it only writes a line to stderr. *)
Definition startup_log (e : env) : list string :=
  if negb (String.eqb (str_or (CHITCHATS_CLIENT_ID e) "") "")
     && negb (String.eqb (str_or (CHITCHATS_ACCESS_TOKEN e) "") "")
  then []
  else ["Missing CHITCHATS_CLIENT_ID or CHITCHATS_ACCESS_TOKEN in environment"].

Record ChitChatsClient : Type := mk_client {
  baseUrl : string;
  clientId : string;
  accessToken : string
}.

(** [new ChitChatsClient()]. *)
Definition new_client (e : env) : ChitChatsClient :=
  {| baseUrl := BASE_URL e ++ "/api/v1/clients/" ++ str_templ (CHITCHATS_CLIENT_ID e);
     clientId := str_or (CHITCHATS_CLIENT_ID e) "";
     accessToken := str_or (CHITCHATS_ACCESS_TOKEN e) "" |}.

(** [ApiResponse<T>]; an absent [data] or [error] is [JUndef]. *)
Record ApiResponse : Type := mk_resp {
  data : jsval;
  error : jsval;
  status : Z
}.

Definition response_ok (st : Z) : bool := (200 <=? st) && (st <=? 299).

Definition request_headers (c : ChitChatsClient) (body : option jsval)
  : list (string * string) :=
  [("Authorization", accessToken c); ("Accept", "application/json")]
  ++ match body with
     | Some _ => [("Content-Type", "application/json")]
     | None => []
     end.

(** [ChitChatsClient.request]. *)
Definition request_ (c : ChitChatsClient) (method endpoint : string)
  (body : option jsval) : io ApiResponse :=
  let url := baseUrl c ++ endpoint in
  catch_io
    (Fetch (mk_request url method (request_headers c body) body)
       (fun r =>
          match r with
          | Rejected m => Throw m
          | Responded st retryAfter b =>
              if st =? 429 then
                Ret {| data := JUndef;
                       error := JStr ("Rate limited. Retry after "
                                      ++ str_or retryAfter "unknown"
                                      ++ " seconds.");
                       status := 429 |}
              else if st =? 204 then
                Ret {| data := JUndef; error := JUndef; status := 204 |}
              else
                match b with
                | BodyInvalid m => Throw m
                | BodyJson d =>
                    if negb (response_ok st) then
                      err <- get d "error" ;;
                      if truthy err then
                        Ret {| data := JUndef; error := err; status := st |}
                      else
                        msg <- get d "message" ;;
                        Ret {| data := JUndef;
                               error := js_or msg (JStr ("HTTP " ++ z_to_string st));
                               status := st |}
                    else Ret {| data := d; error := JUndef; status := st |}
                end
          end))
    (fun m => Ret {| data := JUndef; error := JStr m; status := 500 |}).

Definition client_get (c : ChitChatsClient) (endpoint : string) :=
  request_ c "GET" endpoint None.
Definition client_post (c : ChitChatsClient) (endpoint : string) (body : option jsval) :=
  request_ c "POST" endpoint body.
Definition client_patch (c : ChitChatsClient) (endpoint : string) (body : option jsval) :=
  request_ c "PATCH" endpoint body.
Definition client_delete (c : ChitChatsClient) (endpoint : string) :=
  request_ c "DELETE" endpoint None.

(** [ChitChatsClient.getPublicTracking]: no status handling at all. *)
Definition getPublicTracking (e : env) (shipmentId : string) : io ApiResponse :=
  catch_io
    (Fetch (mk_request (BASE_URL e ++ "/tracking/" ++ shipmentId ++ ".json")
              "GET" [] None)
       (fun r =>
          match r with
          | Rejected m => Throw m
          | Responded st _ b =>
              match b with
              | BodyInvalid m => Throw m
              | BodyJson d => Ret {| data := d; error := JUndef; status := st |}
              end
          end))
    (fun m => Ret {| data := JUndef; error := JStr m; status := 500 |}).

(** ** Parameter validation: the zod object schemas of [src/schemas.ts] *)

(** The field types the schemas use: [z.string()], [z.number()] with
    optional [.min]/[.max], [z.enum([...])] and [z.array(z.string())]. *)
Inductive ztype : Type :=
| ZString
| ZNumber (min max : option Z)
| ZEnum (vals : list string)
| ZStringArray.

Record zfield : Type := mk_field {
  zf_name : string;
  zf_type : ztype;
  zf_optional : bool
}.

Definition zschema := list zfield.

Inductive pathseg : Type :=
| PKey (k : string)
| PIdx (i : nat).

(** A zod issue: the plain object zod builds, with its keys in the order
    zod writes them. *)
Definition issue := list (string * jsval).

(** The [path] property of an issue. *)
Definition iss_path (i : issue) : jsval := assoc_get "path" i.

Definition parsed_type (v : jsval) : string :=
  match v with
  | JUndef => "undefined"
  | JNull => "null"
  | JBool _ => "boolean"
  | JNum _ => "number"
  | JStr _ => "string"
  | JArr _ => "array"
  | JObj _ => "object"
  end.

(** Property assignment on an object literal ([{...o, k: v}]): an existing
    key keeps its place, a new key goes last. *)
Fixpoint js_set (k : string) (v : jsval) (o : list (string * jsval))
  : list (string * jsval) :=
  match o with
  | [] => [(k, v)]
  | (k', v') :: o' =>
      if String.eqb k k' then (k', v) :: o' else (k', v') :: js_set k v o'
  end.

(** A parse path as a JSON array: object keys are strings, array indices
    are numbers. *)
Definition path_json (path : list pathseg) : jsval :=
  JArr (map (fun p => match p with
                      | PKey k => JStr k
                      | PIdx i => JNum (Z.of_nat i)
                      end) path).

(** [util.joinValues(values)]: strings quoted with ['], joined by [" | "]. *)
Definition join_values (vals : list jsval) : string :=
  String.concat " | "
    (map (fun v => match v with JStr s => "'" ++ s ++ "'" | _ => to_str v end) vals).

(** [defaultErrorMap] (zod's English error map) on the issue codes these
    schemas raise; bounds occur only on numbers. *)
Definition default_message (iss : issue) : string :=
  let g k := assoc_get k iss in
  match g "code" with
  | JStr code =>
      if String.eqb code "invalid_type" then
        if String.eqb (to_str (g "received")) "undefined" then "Required"
        else "Expected " ++ to_str (g "expected") ++ ", received "
             ++ to_str (g "received")
      else if String.eqb code "invalid_enum_value" then
        "Invalid enum value. Expected "
        ++ join_values (match g "options" with JArr l => l | _ => [] end)
        ++ ", received '" ++ to_str (g "received") ++ "'"
      else if String.eqb code "too_small" then
        "Number must be "
        ++ (if truthy (g "exact") then "exactly equal to "
            else if truthy (g "inclusive") then "greater than or equal to "
            else "greater than ")
        ++ to_str (g "minimum")
      else if String.eqb code "too_big" then
        "Number must be "
        ++ (if truthy (g "exact") then "exactly"
            else if truthy (g "inclusive") then "less than or equal to"
            else "less than")
        ++ " " ++ to_str (g "maximum")
      else ""
  | _ => ""
  end.

(** [makeIssue]: [{...issueData, path}], then [message] set to the
    issue's own message, or to the error map's message when the issue
    has none. *)
Definition make_issue (path : list pathseg) (data : issue) : issue :=
  let full := js_set "path" (path_json path) data in
  js_set "message"
    (match assoc_get "message" data with
     | JUndef => JStr (default_message full)
     | m => m
     end) full.

(** The [invalid_type] issue of [ZodString], [ZodNumber], [ZodArray] and
    [ZodObject]. *)
Definition invalid_type (path : list pathseg) (expected : string) (v : jsval)
  : issue :=
  make_issue path
    [("code", JStr "invalid_type"); ("expected", JStr expected);
     ("received", JStr (parsed_type v))].

Fixpoint check_elems (path : list pathseg) (i : nat) (l : list jsval)
  : list issue :=
  match l with
  | [] => []
  | JStr _ :: l' => check_elems path (S i) l'
  | x :: l' => invalid_type (path ++ [PIdx i]) "string" x
                :: check_elems path (S i) l'
  end.

(** The issues a value raises against a field type. *)
Definition check_type (path : list pathseg) (t : ztype) (v : jsval)
  : list issue :=
  match t with
  | ZString =>
      match v with JStr _ => [] | _ => [invalid_type path "string" v] end
  | ZNumber lo hi =>
      match v with
      | JNum n =>
          match lo with
          | Some m =>
              if n <? m then
                [make_issue path
                   [("code", JStr "too_small"); ("minimum", JNum m);
                    ("type", JStr "number"); ("inclusive", JBool true);
                    ("exact", JBool false); ("message", JUndef)]]
              else []
          | None => []
          end
          ++
          match hi with
          | Some m =>
              if m <? n then
                [make_issue path
                   [("code", JStr "too_big"); ("maximum", JNum m);
                    ("type", JStr "number"); ("inclusive", JBool true);
                    ("exact", JBool false); ("message", JUndef)]]
              else []
          | None => []
          end
      | _ => [invalid_type path "number" v]
      end
  | ZEnum vals =>
      match v with
      | JStr s =>
          if existsb (String.eqb s) vals then []
          else [make_issue path
                  [("received", JStr s); ("code", JStr "invalid_enum_value");
                   ("options", JArr (map JStr vals))]]
      | _ => [make_issue path
                [("expected", JStr (join_values (map JStr vals)));
                 ("received", JStr (parsed_type v)); ("code", JStr "invalid_type")]]
      end
  | ZStringArray =>
      match v with
      | JArr l => check_elems path 0 l
      | _ => [invalid_type path "array" v]
      end
  end.

Definition is_undef (v : jsval) : bool :=
  match v with JUndef => true | _ => false end.

(** [.optional()] accepts an absent field; anything else goes to the
    field's type. *)
Definition check_field (fs : list (string * jsval)) (f : zfield) : list issue :=
  let v := assoc_get (zf_name f) fs in
  if zf_optional f && is_undef v then []
  else check_type [PKey (zf_name f)] (zf_type f) v.

(** The output object: the declared fields present in the input, in the
    schema's order; undeclared input fields are stripped. *)
Definition strip_output (s : zschema) (fs : list (string * jsval))
  : list (string * jsval) :=
  flat_map (fun f => let v := assoc_get (zf_name f) fs in
                     if is_undef v then [] else [(zf_name f, v)]) s.

(** [schema.safeParse(input)]: the issues, or the output object.  Objects
    are those produced by [JSON.parse], so no key occurs twice. *)
Definition zparse (s : zschema) (input : jsval)
  : list issue + list (string * jsval) :=
  match input with
  | JObj fs =>
      match flat_map (check_field fs) s with
      | [] => inr (strip_output s fs)
      | iss => inl iss
      end
  | _ => inl [invalid_type [] "object" input]
  end.

Definition nl : string := String (ascii_of_nat 10) "".

(** The double quote character, as a string. *)
Definition dq : string := String (ascii_of_nat 34) "".

Definition hex_digit (n : nat) : ascii :=
  ascii_of_nat (if Nat.ltb n 10 then 48 + n else 87 + n).

(** [QuoteJSONString] on the characters of a string: the quote, the
    backslash and the control characters are escaped, every other
    character is copied. *)
Fixpoint json_escape (s : string) : string :=
  match s with
  | EmptyString => ""
  | String c s' =>
      let n := nat_of_ascii c in
      (if Nat.eqb n 34 then "\" ++ dq
       else if Nat.eqb n 92 then "\\"
       else if Nat.eqb n 8 then "\b"
       else if Nat.eqb n 12 then "\f"
       else if Nat.eqb n 10 then "\n"
       else if Nat.eqb n 13 then "\r"
       else if Nat.eqb n 9 then "\t"
       else if Nat.ltb n 32 then
         "\u00" ++ String (hex_digit (n / 16)) (String (hex_digit (n mod 16)) "")
       else String c "") ++ json_escape s'
  end.

Definition json_quote (s : string) : string := dq ++ json_escape s ++ dq.

Fixpoint somes {A : Type} (l : list (option A)) : list A :=
  match l with
  | [] => []
  | Some x :: l' => x :: somes l'
  | None :: l' => somes l'
  end.

(** The members of an array or object laid out with the indentation
    [ind] of the enclosing line; no member gives [[]] or [{}]. *)
Definition json_block (opn cls ind : string) (items : list string) : string :=
  match items with
  | [] => opn ++ cls
  | _ => opn ++ nl ++ ind ++ "  "
         ++ String.concat ("," ++ nl ++ ind ++ "  ") items
         ++ nl ++ ind ++ cls
  end.

(** [JSON.stringify(v, null, 2)] of a value on a line indented by [ind]:
    an undefined array element prints as [null], an undefined property is
    skipped.  Objects here have distinct keys. *)
Fixpoint json_str (ind : string) (v : jsval) {struct v} : string :=
  match v with
  | JUndef => "null"
  | JNull => "null"
  | JBool b => if b then "true" else "false"
  | JNum n => z_to_string n
  | JStr s => json_quote s
  | JArr l => json_block "[" "]" ind (map (json_str (ind ++ "  ")) l)
  | JObj fs =>
      json_block "{" "}" ind
        (somes (map (fun '(k, w) =>
                       match w with
                       | JUndef => None
                       | _ => Some (json_quote k ++ ": " ++ json_str (ind ++ "  ") w)
                       end) fs))
  end.

(** [ZodError.message], i.e. [JSON.stringify(this.issues, replacer, 2)]
    (the replacer only changes bigints). *)
Definition zod_message (iss : list issue) : string :=
  json_str "" (JArr (map JObj iss)).

(** A text written with backquotes for double quotes. *)
Fixpoint unbackquote (s : string) : string :=
  match s with
  | EmptyString => ""
  | String c s' =>
      (if Nat.eqb (nat_of_ascii c) 96 then dq else String c "") ++ unbackquote s'
  end.

(** [schema.parse(input)]: throws the [ZodError] on failure. *)
Definition zod_parse (s : zschema) (input : jsval) : io (list (string * jsval)) :=
  match zparse s input with
  | inl iss => Throw (zod_message iss)
  | inr out => Ret out
  end.

Definition req (n : string) (t : ztype) : zfield := mk_field n t false.
Definition opt (n : string) (t : ztype) : zfield := mk_field n t true.

Definition ListShipmentsSchema : zschema :=
  [opt "limit" (ZNumber (Some 1) (Some 1000)); opt "page" (ZNumber (Some 1) None);
   opt "batch_id" ZString; opt "status" ZString; opt "from_date" ZString;
   opt "to_date" ZString; opt "search" ZString].
Definition GetShipmentSchema : zschema := [req "id" ZString].
Definition CreateShipmentSchema : zschema :=
  [req "name" ZString; req "address_1" ZString; opt "address_2" ZString;
   req "city" ZString; req "province_code" ZString; req "postal_code" ZString;
   req "country_code" ZString; opt "phone" ZString; opt "email" ZString;
   opt "package_type" (ZEnum ["parcel"; "thick_envelope"; "flat_rate_envelope"]);
   opt "size_unit" (ZEnum ["cm"; "in"]);
   opt "size_x" (ZNumber None None); opt "size_y" (ZNumber None None);
   opt "size_z" (ZNumber None None);
   opt "weight_unit" (ZEnum ["g"; "kg"; "oz"; "lb"]);
   opt "weight" (ZNumber None None); opt "description" ZString;
   opt "value" (ZNumber None None); opt "value_currency" (ZEnum ["CAD"; "USD"]);
   opt "order_id" ZString; opt "order_store" ZString; opt "postage_type" ZString].
Definition DeleteShipmentSchema : zschema := [req "id" ZString].
Definition BuyPostageSchema : zschema := [req "id" ZString].
Definition RefundShipmentSchema : zschema := [req "id" ZString].
Definition RefreshRatesSchema : zschema :=
  [req "id" ZString; opt "size_x" (ZNumber None None); opt "size_y" (ZNumber None None);
   opt "size_z" (ZNumber None None); opt "weight" (ZNumber None None)].
Definition CountShipmentsSchema : zschema := [opt "status" ZString].
Definition ListBatchesSchema : zschema :=
  [opt "limit" (ZNumber (Some 1) (Some 1000)); opt "page" (ZNumber (Some 1) None);
   opt "status" (ZEnum ["pending"; "received"])].
Definition CreateBatchSchema : zschema := [opt "description" ZString].
Definition GetBatchSchema : zschema := [req "id" ZString].
Definition DeleteBatchSchema : zschema := [req "id" ZString].
Definition AddToBatchSchema : zschema :=
  [req "batch_id" ZString; req "shipment_ids" ZStringArray].
Definition RemoveFromBatchSchema : zschema := [req "shipment_ids" ZStringArray].
Definition CountBatchesSchema : zschema := [opt "status" (ZEnum ["pending"; "received"])].
Definition ListReturnsSchema : zschema :=
  [opt "limit" (ZNumber (Some 1) (Some 1000)); opt "page" (ZNumber (Some 1) None);
   opt "status" ZString; opt "reason" ZString].
Definition TrackShipmentSchema : zschema := [req "id" ZString].

(** ** JavaScript operations used by the handlers *)

Fixpoint io_map {A B} (f : A -> io B) (l : list A) : io (list B) :=
  match l with
  | [] => Ret []
  | x :: l' => y <- f x ;; ys <- io_map f l' ;; Ret (y :: ys)
  end.

(** [v.map(f)], where [expr] is the source text of [v] (it appears in the
    message of the [TypeError]). *)
Definition js_map {B} (expr : string) (v : jsval) (f : jsval -> io B)
  : io (list B) :=
  match v with
  | JArr l => io_map f l
  | JUndef | JNull =>
      Throw ("Cannot read properties of " ++ parsed_type v ++ " (reading 'map')")
  | _ => Throw (expr ++ ".map is not a function")
  end.

(** The values visited by [for (const x of v)]. *)
Definition js_iter (expr : string) (v : jsval) : io (list jsval) :=
  match v with
  | JArr l => Ret l
  | JStr s => Ret (map (fun c => JStr (String c "")) (list_ascii_of_string s))
  | _ => Throw (expr ++ " is not iterable")
  end.

Definition ascii_upper (c : ascii) : ascii :=
  let n := nat_of_ascii c in
  if (97 <=? n)%nat && (n <=? 122)%nat then ascii_of_nat (n - 32) else c.

Fixpoint str_upper (s : string) : string :=
  match s with
  | EmptyString => EmptyString
  | String c s' => String (ascii_upper c) (str_upper s')
  end.

(** [v.toUpperCase()] (ASCII case mapping). *)
Definition js_upper (expr : string) (v : jsval) : io string :=
  match v with
  | JStr s => Ret (str_upper s)
  | JUndef | JNull =>
      Throw ("Cannot read properties of " ++ parsed_type v
             ++ " (reading 'toUpperCase')")
  | _ => Throw (expr ++ ".toUpperCase is not a function")
  end.

(** [ToNumber]; [None] is NaN.  Strings are read as unsigned decimal
    integers (the empty string is 0); other numeric spellings are read as
    NaN. *)
Fixpoint digits_value (s : string) (acc : Z) : option Z :=
  match s with
  | EmptyString => Some acc
  | String c s' =>
      let n := Z.of_nat (nat_of_ascii c) in
      if (48 <=? n) && (n <=? 57) then digits_value s' (acc * 10 + (n - 48))
      else None
  end.

Definition str_to_number (s : string) : option Z :=
  if String.eqb s "" then Some 0 else digits_value s 0.

Definition to_number (v : jsval) : option Z :=
  match v with
  | JUndef => None
  | JNull => Some 0
  | JBool b => Some (if b then 1 else 0)
  | JNum n => Some n
  | JStr s => str_to_number s
  | JArr _ | JObj _ => str_to_number (to_str v)
  end.

(** [v > 0]. *)
Definition gt0 (v : jsval) : bool :=
  match to_number v with Some n => 0 <? n | None => false end.

(** [v === 0]. *)
Definition is_zero (v : jsval) : bool :=
  match v with JNum n => n =? 0 | _ => false end.

(** [a ?? b]. *)
Definition nullish_or (a b : jsval) : jsval :=
  match a with JUndef | JNull => b | _ => a end.

(** [SameValueZero], the equality of [Set]: objects and arrays parsed from
    JSON are distinct references. *)
Definition same_value_zero (a b : jsval) : bool :=
  match a, b with
  | JUndef, JUndef | JNull, JNull => true
  | JBool x, JBool y => Bool.eqb x y
  | JNum x, JNum y => x =? y
  | JStr x, JStr y => String.eqb x y
  | _, _ => false
  end.

(** [[...new Set(l)]]. *)
Fixpoint set_dedupe (seen : list jsval) (l : list jsval) : list jsval :=
  match l with
  | [] => []
  | x :: l' =>
      if existsb (same_value_zero x) seen then set_dedupe seen l'
      else x :: set_dedupe (x :: seen) l'
  end.

(** [l.join(sep)]. *)
Definition join_vals (sep : string) (l : list jsval) : string :=
  String.concat sep
    (map (fun x => match x with JUndef | JNull => "" | _ => to_str x end) l).

(** [if (v) lines.push(f(`${v}`))]. *)
Definition line_if (v : jsval) (f : string -> string) : list string :=
  if truthy v then [f (to_str v)] else [].

(** [URLSearchParams.prototype.toString]: the
    application/x-www-form-urlencoded serialisation, byte by byte.  A
    string is its UTF-8 bytes, so only well-formed strings are modelled:
    [URLSearchParams.set] first turns a lone surrogate into U+FFFD. *)
Definition hexdig (n : nat) : ascii :=
  ascii_of_nat (if (n <? 10)%nat then 48 + n else 55 + n)%nat.

Definition form_byte (c : ascii) : string :=
  let n := nat_of_ascii c in
  if ((48 <=? n) && (n <=? 57) || (65 <=? n) && (n <=? 90)
      || (97 <=? n) && (n <=? 122)
      || (n =? 42) || (n =? 45) || (n =? 46) || (n =? 95))%nat
  then String c ""
  else if (n =? 32)%nat then "+"
  else String "%" (String (hexdig (n / 16)) (String (hexdig (n mod 16)) "")).

Fixpoint form_encode (s : string) : string :=
  match s with
  | EmptyString => ""
  | String c s' => form_byte c ++ form_encode s'
  end.

Definition search_params_string (qp : list (string * string)) : string :=
  String.concat "&" (map (fun '(k, v) => form_encode k ++ "=" ++ form_encode v) qp).

(** [if (params.k) queryParams.set(k, `${params.k}`)]. *)
Definition set_if (params : list (string * jsval)) (k : string)
  : list (string * string) :=
  let v := assoc_get k params in if truthy v then [(k, to_str v)] else [].

(** [`${path}${query ? `?${query}` : ""}`]. *)
Definition with_query (path : string) (qp : list (string * string)) : string :=
  let query := search_params_string qp in
  path ++ (if String.eqb query "" then "" else "?" ++ query).

(** [if (params.k) body.k = params.k]. *)
Definition fwd (params : list (string * jsval)) (k : string)
  : list (string * jsval) :=
  let v := assoc_get k params in if truthy v then [(k, v)] else [].

(** The module-level [client]. *)
Definition client (e : env) : ChitChatsClient := new_client e.

Definition lines_join (l : list string) : string := String.concat nl l.

Definition ret_lines (l : list string) : io (list string) := Ret l.

(** ** Shipment tools ([src/tools/shipments.ts]) *)

Module Shipments.

Definition summary (s : jsval) : io string :=
  _ <- get s "id" ;;
  let f := oget s in
  hs <- (if truthy (f "line_items") && gt0 (oget (f "line_items") "length") then
           codes <- js_map "s.line_items" (f "line_items")
                      (fun li => get li "hs_tariff_code") ;;
           let hsCodes := set_dedupe [] (filter truthy codes) in
           Ret (if (0 <? List.length hsCodes)%nat
                then ["HS Codes: " ++ join_vals ", " hsCodes] else [])
         else Ret []) ;;
  Ret (lines_join
    (["ID: " ++ to_str (f "id");
      "Status: " ++ to_str (f "status");
      "Recipient: " ++ to_str (f "to_name") ++ ", " ++ to_str (f "to_city")
        ++ ", " ++ to_str (f "to_province_code") ++ ", "
        ++ to_str (f "to_country_code")]
     ++ line_if (f "order_id") (fun x => "Order ID: " ++ x)
     ++ line_if (f "carrier") (fun x => "Carrier: " ++ x)
     ++ line_if (f "postage_type") (fun x => "Postage Type: " ++ x)
     ++ line_if (f "purchase_amount") (fun x => "Total Cost: $" ++ x)
     ++ line_if (f "carrier_tracking_code") (fun x => "Tracking: " ++ x)
     ++ hs
     ++ line_if (f "created_at") (fun x => "Created: " ++ x))).

Definition listShipments (e : env) (params : list (string * jsval)) : io string :=
  let qp := (set_if params "limit" ++ set_if params "page"
             ++ set_if params "batch_id" ++ set_if params "status"
             ++ set_if params "from_date" ++ set_if params "to_date"
             ++ set_if params "search")%list in
  response <- client_get (client e) (with_query "/shipments" qp) ;;
  if truthy (error response) then
    Ret ("Error listing shipments: " ++ to_str (error response))
  else
    let shipments := js_or (data response) (JArr []) in
    len <- get shipments "length" ;;
    if is_zero len then Ret "No shipments found matching your criteria."
    else
      formatted <- js_map "shipments" shipments summary ;;
      Ret ("Found " ++ to_str len ++ " shipment(s):" ++ nl ++ nl
           ++ String.concat (nl ++ nl ++ "---" ++ nl ++ nl) formatted).

Definition detail_line_item (item : jsval) : io (list string) :=
  _ <- get item "quantity" ;;
  let f := oget item in
  cur <- js_upper "item.currency_code" (f "currency_code") ;;
  ret_lines (["**" ++ to_str (f "quantity") ++ "x " ++ to_str (f "description") ++ "**";
        "  - Value: $" ++ to_str (f "value_amount") ++ " " ++ cur]
       ++ line_if (f "hs_tariff_code") (fun x => "  - HS Code: " ++ x)
       ++ line_if (f "sku_code") (fun x => "  - SKU: " ++ x)
       ++ line_if (f "origin_country") (fun x => "  - Origin: " ++ x)
       ++ (if truthy (f "weight") then
             ["  - Weight: " ++ to_str (f "weight") ++ " "
              ++ to_str (js_or (f "weight_unit") (JStr "g"))]
           else [])
       ++ (if truthy (f "manufacturer_id") then
             ["  - Manufacturer ID: " ++ to_str (f "manufacturer_id")]
             ++ (if truthy (f "manufacturer_city") then
                   ["  - Manufacturer: " ++ to_str (f "manufacturer_city") ++ ", "
                    ++ to_str (js_or (f "manufacturer_province_code") (JStr ""))]
                 else [])
           else [])).

Definition detail_rate (rate : jsval) : io (list string) :=
  _ <- get rate "postage_description" ;;
  let f := oget rate in
  ret_lines (["**" ++ to_str (f "postage_description") ++ "** ("
        ++ to_str (f "postage_type") ++ ")";
        "  - Cost: $" ++ to_str (js_or (f "payment_amount") (f "purchase_amount"))]
       ++ line_if (f "delivery_time_description") (fun x => "  - Delivery: " ++ x)
       ++ line_if (f "tracking_type_description") (fun x => "  - Tracking: " ++ x)
       ++ line_if (f "tariff_fee") (fun x => "  - Tariff: $" ++ x)).

(** The section of [getShipment] before the line items; [s] is truthy. *)
Definition detail_head (s : jsval) : list string :=
  let f := oget s in
  let services :=
    ((if truthy (f "is_insured") then ["Insured"] else [])
    ++ (if truthy (f "is_signature_requested") then ["Signature Required"] else [])
    ++ (if truthy (f "is_delivery_duties_paid_requested") then ["DDP"] else [])
    ++ (if truthy (f "is_media_mail_requested") then ["Media Mail"] else []))%list in
  ["## Shipment " ++ to_str (f "id"); ""; "**Status:** " ++ to_str (f "status")]
  ++ line_if (f "order_id") (fun x => "**Order ID:** " ++ x)
  ++ line_if (f "order_store") (fun x => "**Store:** " ++ x)
  ++ line_if (f "batch_id") (fun x => "**Batch ID:** " ++ x)
  ++ [""; "### Recipient"]
  ++ ["**Name:** " ++ to_str (f "to_name")]
  ++ (if truthy (f "to_address_1") then
        ["**Address:** " ++ to_str (f "to_address_1")
         ++ (if truthy (f "to_address_2") then ", " ++ to_str (f "to_address_2") else "")]
      else [])
  ++ ["**City:** " ++ to_str (f "to_city") ++ ", " ++ to_str (f "to_province_code")
      ++ " " ++ to_str (js_or (f "to_postal_code") (JStr ""))]
  ++ ["**Country:** " ++ to_str (f "to_country_code")]
  ++ line_if (f "to_phone") (fun x => "**Phone:** " ++ x)
  ++ line_if (f "to_email") (fun x => "**Email:** " ++ x)
  ++ [""; "### Package"]
  ++ line_if (f "package_type") (fun x => "**Type:** " ++ x)
  ++ line_if (f "package_contents") (fun x => "**Contents Type:** " ++ x)
  ++ line_if (f "description") (fun x => "**Description:** " ++ x)
  ++ (if truthy (f "size_x") && truthy (f "size_y") && truthy (f "size_z") then
        ["**Dimensions:** " ++ to_str (f "size_x") ++ " x " ++ to_str (f "size_y")
         ++ " x " ++ to_str (f "size_z") ++ " "
         ++ to_str (js_or (f "size_unit") (JStr ""))]
      else [])
  ++ (if truthy (f "weight") then
        ["**Weight:** " ++ to_str (f "weight") ++ " "
         ++ to_str (js_or (f "weight_unit") (JStr ""))]
      else [])
  ++ (if truthy (f "value") then
        ["**Declared Value:** $" ++ to_str (f "value") ++ " "
         ++ to_str (js_or (f "value_currency") (JStr ""))]
      else [])
  ++ (if (0 <? List.length services)%nat then
        ["**Services:** " ++ String.concat ", " services] else [])
  ++ [""; "### Shipping"]
  ++ line_if (f "carrier") (fun x => "**Carrier:** " ++ x)
  ++ line_if (f "postage_type") (fun x => "**Postage Type:** " ++ x)
  ++ line_if (f "carrier_tracking_code") (fun x => "**Tracking Number:** " ++ x)
  ++ line_if (f "tracking_url") (fun x => "**Tracking URL:** " ++ x)
  ++ line_if (f "ship_date") (fun x => "**Ship Date:** " ++ x)
  ++ [""; "### Cost Breakdown"]
  ++ line_if (f "purchase_amount") (fun x => "**Total Paid:** $" ++ x)
  ++ line_if (f "postage_fee") (fun x => "- Postage: $" ++ x)
  ++ line_if (f "tariff_fee") (fun x => "- Tariff/Duty: $" ++ x)
  ++ line_if (f "broker_conveyance_fee") (fun x => "- Broker Fee: $" ++ x)
  ++ line_if (f "shipment_items_fee") (fun x => "- Items Fee: $" ++ x)
  ++ line_if (f "insurance_fee") (fun x => "- Insurance: $" ++ x)
  ++ line_if (f "delivery_fee") (fun x => "- Delivery: $" ++ x)
  ++ line_if (f "fda_prior_notification_fee") (fun x => "- FDA Fee: $" ++ x)
  ++ (if truthy (f "federal_tax") then
        ["- " ++ to_str (js_or (f "federal_tax_label") (JStr "Federal Tax"))
         ++ ": $" ++ to_str (f "federal_tax")]
      else [])
  ++ (if truthy (f "provincial_tax") then
        ["- " ++ to_str (js_or (f "provincial_tax_label") (JStr "Provincial Tax"))
         ++ ": $" ++ to_str (f "provincial_tax")]
      else []).

(** The section of [getShipment] after the rates; [s] is truthy. *)
Definition detail_tail (s : jsval) : list string :=
  let f := oget s in
  (if truthy (f "postage_label_png_url") || truthy (f "postage_label_pdf_url") then
     [""; "### Labels"]
     ++ line_if (f "postage_label_png_url") (fun x => "- PNG: " ++ x)
     ++ line_if (f "postage_label_pdf_url") (fun x => "- PDF: " ++ x)
     ++ line_if (f "postage_label_zpl_url") (fun x => "- ZPL: " ++ x)
   else [])
  ++ (if truthy (f "return_name") then
        [""; "### Return Address"; to_str (f "return_name")]
        ++ line_if (f "return_address_1") (fun x => x)
        ++ [to_str (f "return_city") ++ ", " ++ to_str (f "return_province_code")
            ++ " " ++ to_str (f "return_postal_code");
            to_str (f "return_country_code")]
      else [])
  ++ [""; "**Created:** " ++ to_str (f "created_at")].

(** [if (v && v.length > 0) { for (const x of v) ... }]. *)
Definition each_nonempty (expr : string) (v : jsval) (hdr : list string)
  (g : jsval -> io (list string)) : io (list string) :=
  if truthy v && gt0 (oget v "length") then
    xs <- js_iter expr v ;;
    ls <- io_map g xs ;;
    ret_lines (hdr ++ List.concat ls)
  else Ret [].

Definition getShipment (e : env) (params : list (string * jsval)) : io string :=
  let id := to_str (assoc_get "id" params) in
  response <- client_get (client e) ("/shipments/" ++ id) ;;
  if truthy (error response) then
    Ret ("Error getting shipment: " ++ to_str (error response))
  else
    let s := oget (data response) "shipment" in
    if negb (truthy s) then Ret ("Shipment " ++ id ++ " not found.")
    else
      items <- each_nonempty "s.line_items" (oget s "line_items")
                 [""; "### Line Items"] detail_line_item ;;
      rates <- each_nonempty "s.rates" (oget s "rates")
                 [""; "### Available Rates"] detail_rate ;;
      Ret (lines_join (detail_head s ++ items ++ rates ++ detail_tail s)).

Definition rates_rate (rate : jsval) : io (list string) :=
  _ <- get rate "postage_description" ;;
  let f := oget rate in
  ret_lines (["### " ++ to_str (f "postage_description");
              "- **Type:** " ++ to_str (f "postage_type");
              "- **Carrier:** " ++ to_str (f "postage_carrier_type");
              "- **Total Cost:** $"
                ++ to_str (js_or (f "payment_amount") (f "purchase_amount"));
              "  - Postage: $" ++ to_str (f "postage_fee")]
             ++ line_if (f "tariff_fee") (fun x => "  - Tariff: $" ++ x)
             ++ line_if (f "broker_conveyance_fee") (fun x => "  - Broker: $" ++ x)
             ++ line_if (f "shipment_items_fee") (fun x => "  - Items Fee: $" ++ x)
             ++ line_if (f "insurance_fee") (fun x => "  - Insurance: $" ++ x)
             ++ line_if (f "delivery_time_description")
                  (fun x => "- **Delivery:** " ++ x)
             ++ line_if (f "tracking_type_description")
                  (fun x => "- **Tracking:** " ++ x)
             ++ (if truthy (f "is_insured") then ["- **Insured:** Yes"] else [])
             ++ [""]).

Definition getShipmentRates (e : env) (params : list (string * jsval)) : io string :=
  let id := to_str (assoc_get "id" params) in
  response <- client_get (client e) ("/shipments/" ++ id) ;;
  if truthy (error response) then
    Ret ("Error getting shipment rates: " ++ to_str (error response))
  else
    let s := oget (data response) "shipment" in
    if negb (truthy s) then Ret ("Shipment " ++ id ++ " not found.")
    else
      let f := oget s in
      if negb (truthy (f "rates")) || is_zero (oget (f "rates") "length") then
        Ret ("No rates available for shipment " ++ id
             ++ ". The shipment may already have postage purchased.")
      else
        rs <- js_iter "s.rates" (f "rates") ;;
        ls <- io_map rates_rate rs ;;
        Ret (lines_join
          (["## Available Rates for Shipment " ++ to_str (f "id"); "";
            "Destination: " ++ to_str (f "to_city") ++ ", "
              ++ to_str (f "to_province_code") ++ ", " ++ to_str (f "to_country_code");
            "Package: " ++ to_str (js_or (f "weight") (JStr "?")) ++ " "
              ++ to_str (js_or (f "weight_unit") (JStr "g")) ++ ", "
              ++ to_str (js_or (f "size_x") (JStr "?")) ++ "x"
              ++ to_str (js_or (f "size_y") (JStr "?")) ++ "x"
              ++ to_str (js_or (f "size_z") (JStr "?")) ++ " "
              ++ to_str (js_or (f "size_unit") (JStr ""));
            ""] ++ List.concat ls)).

Definition getShipmentLabels (e : env) (params : list (string * jsval)) : io string :=
  let id := to_str (assoc_get "id" params) in
  response <- client_get (client e) ("/shipments/" ++ id) ;;
  if truthy (error response) then
    Ret ("Error getting shipment labels: " ++ to_str (error response))
  else
    let s := oget (data response) "shipment" in
    if negb (truthy s) then Ret ("Shipment " ++ id ++ " not found.")
    else
      let f := oget s in
      if negb (truthy (f "postage_label_png_url"))
         && negb (truthy (f "postage_label_pdf_url")) then
        Ret ("No labels available for shipment " ++ id
             ++ ". Postage may not have been purchased yet.")
      else
        Ret (lines_join
          (["## Labels for Shipment " ++ to_str (f "id"); "";
            "Order: " ++ to_str (js_or (f "order_id") (JStr "N/A"));
            "Recipient: " ++ to_str (f "to_name") ++ ", " ++ to_str (f "to_city")
              ++ ", " ++ to_str (f "to_country_code");
            "Carrier: " ++ to_str (js_or (f "carrier") (JStr "N/A"));
            "Tracking: " ++ to_str (js_or (f "carrier_tracking_code") (JStr "N/A"));
            ""; "### Download URLs"]
           ++ line_if (f "postage_label_png_url") (fun x => "- **PNG:** " ++ x)
           ++ line_if (f "postage_label_pdf_url") (fun x => "- **PDF:** " ++ x)
           ++ line_if (f "postage_label_zpl_url") (fun x => "- **ZPL:** " ++ x))).

Definition items_item (item : jsval) : io (list string) :=
  _ <- get item "description" ;;
  let f := oget item in
  cur <- js_upper "item.currency_code" (f "currency_code") ;;
  ret_lines (["### " ++ to_str (f "description");
              "- **Quantity:** " ++ to_str (f "quantity");
              "- **Value:** $" ++ to_str (f "value_amount") ++ " " ++ cur]
             ++ line_if (f "hs_tariff_code") (fun x => "- **HS Tariff Code:** " ++ x)
             ++ line_if (f "sku_code") (fun x => "- **SKU:** " ++ x)
             ++ line_if (f "origin_country") (fun x => "- **Country of Origin:** " ++ x)
             ++ (if truthy (f "weight") then
                   ["- **Weight:** " ++ to_str (f "weight") ++ " "
                    ++ to_str (js_or (f "weight_unit") (JStr "g"))]
                 else [])
             ++ (if truthy (f "manufacturer_id") then
                   [""; "**Manufacturer:**";
                    "  - ID: " ++ to_str (f "manufacturer_id")]
                   ++ line_if (f "manufacturer_contact") (fun x => "  - Contact: " ++ x)
                   ++ line_if (f "manufacturer_street") (fun x => "  - Address: " ++ x)
                   ++ (if truthy (f "manufacturer_city") then
                         ["  - Location: " ++ to_str (f "manufacturer_city") ++ ", "
                          ++ to_str (js_or (f "manufacturer_province_code") (JStr ""))
                          ++ " "
                          ++ to_str (js_or (f "manufacturer_postal_code") (JStr ""))]
                       else [])
                   ++ line_if (f "manufacturer_phone") (fun x => "  - Phone: " ++ x)
                   ++ line_if (f "manufacturer_email") (fun x => "  - Email: " ++ x)
                 else [])
             ++ [""]).

Definition getShipmentLineItems (e : env) (params : list (string * jsval))
  : io string :=
  let id := to_str (assoc_get "id" params) in
  response <- client_get (client e) ("/shipments/" ++ id) ;;
  if truthy (error response) then
    Ret ("Error getting line items: " ++ to_str (error response))
  else
    let s := oget (data response) "shipment" in
    if negb (truthy s) then Ret ("Shipment " ++ id ++ " not found.")
    else
      let f := oget s in
      if negb (truthy (f "line_items")) || is_zero (oget (f "line_items") "length")
      then Ret ("No line items found for shipment " ++ id ++ ".")
      else
        its <- js_iter "s.line_items" (f "line_items") ;;
        ls <- io_map items_item its ;;
        Ret (lines_join
          (["## Line Items for Shipment " ++ to_str (f "id"); "";
            "Order: " ++ to_str (js_or (f "order_id") (JStr "N/A"));
            "Recipient: " ++ to_str (f "to_name") ++ ", " ++ to_str (f "to_country_code");
            ""] ++ List.concat ls)).

(** The fields [createShipment] copies with [if (params.k) body.k = params.k],
    in the order of its statements. *)
Definition create_optional_fields : list string :=
  ["address_2"; "phone"; "email"; "package_type"; "size_unit"; "size_x";
   "size_y"; "size_z"; "weight_unit"; "weight"; "description"; "value";
   "value_currency"; "order_id"; "order_store"; "postage_type"].

(** The body object built by [createShipment]. *)
Definition create_body (params : list (string * jsval)) : list (string * jsval) :=
  [("name", assoc_get "name" params); ("address_1", assoc_get "address_1" params);
   ("city", assoc_get "city" params); ("province_code", assoc_get "province_code" params);
   ("postal_code", assoc_get "postal_code" params);
   ("country_code", assoc_get "country_code" params)]
  ++ List.concat (map (fwd params) create_optional_fields).

Definition createShipment (e : env) (params : list (string * jsval)) : io string :=
  response <- client_post (client e) "/shipments" (Some (JObj (create_body params))) ;;
  if truthy (error response) then
    Ret ("Error creating shipment: " ++ to_str (error response))
  else
    let s := oget (data response) "shipment" in
    if negb (truthy s) then Ret "Shipment created but no data returned."
    else
      Ret ("Shipment created successfully!" ++ nl ++ nl ++ "ID: " ++ to_str (oget s "id")
           ++ nl ++ "Status: " ++ to_str (oget s "status")
           ++ nl ++ "Recipient: " ++ to_str (oget s "to_name") ++ ", "
           ++ to_str (oget s "to_city") ++ ", " ++ to_str (oget s "to_country_code")).

Definition deleteShipment (e : env) (params : list (string * jsval)) : io string :=
  let id := to_str (assoc_get "id" params) in
  response <- client_delete (client e) ("/shipments/" ++ id) ;;
  if truthy (error response) then
    Ret ("Error deleting shipment: " ++ to_str (error response)
         ++ ". Note: Only unpaid shipments can be deleted.")
  else Ret ("Shipment " ++ id ++ " deleted successfully.").

Definition buyPostage (e : env) (params : list (string * jsval)) : io string :=
  let id := to_str (assoc_get "id" params) in
  response <- client_patch (client e) ("/shipments/" ++ id ++ "/buy") None ;;
  if truthy (error response) then
    Ret ("Error purchasing postage: " ++ to_str (error response))
  else
    let s := oget (data response) "shipment" in
    if negb (truthy s) then
      Ret "Postage purchase initiated. Poll the shipment status to check completion."
    else
      Ret (lines_join
        (["Postage purchased for shipment " ++ to_str (oget s "id") ++ "!"; "";
          "Status: " ++ to_str (oget s "status")]
         ++ line_if (oget s "purchase_amount") (fun x => "Total Cost: $" ++ x)
         ++ line_if (oget s "carrier_tracking_code") (fun x => "Tracking Number: " ++ x))).

Definition refundShipment (e : env) (params : list (string * jsval)) : io string :=
  let id := to_str (assoc_get "id" params) in
  response <- client_patch (client e) ("/shipments/" ++ id ++ "/refund") None ;;
  if truthy (error response) then
    Ret ("Error requesting refund: " ++ to_str (error response))
  else
    Ret ("Refund requested for shipment " ++ id
         ++ ". Check shipment status for updates.").

Definition refreshRates (e : env) (params : list (string * jsval)) : io string :=
  let id := to_str (assoc_get "id" params) in
  let body := List.concat (map (fwd params) ["size_x"; "size_y"; "size_z"; "weight"]) in
  response <- client_patch (client e) ("/shipments/" ++ id ++ "/refresh")
                (match body with [] => None | _ => Some (JObj body) end) ;;
  if truthy (error response) then
    Ret ("Error refreshing rates: " ++ to_str (error response))
  else
    let s := oget (data response) "shipment" in
    if negb (truthy s) then Ret ("Rates refreshed for shipment " ++ id ++ ".")
    else
      let result := "Rates refreshed for shipment " ++ to_str (oget s "id") ++ "."
                    ++ nl ++ nl ++ "Current postage type: "
                    ++ to_str (js_or (oget s "postage_type") (JStr "Not set")) in
      let rates := oget s "rates" in
      if truthy rates && gt0 (oget rates "length") then
        rs <- js_iter "s.rates" rates ;;
        ls <- io_map (fun rate =>
                _ <- get rate "postage_description" ;;
                Ret ("- " ++ to_str (oget rate "postage_description") ++ ": $"
                     ++ to_str (js_or (oget rate "payment_amount")
                                      (oget rate "purchase_amount")) ++ nl)) rs ;;
        Ret (result ++ nl ++ nl ++ "Available rates:" ++ nl ++ String.concat "" ls)
      else Ret result.

Definition countShipments (e : env) (params : list (string * jsval)) : io string :=
  response <- client_get (client e)
                (with_query "/shipments/count" (set_if params "status")) ;;
  if truthy (error response) then
    Ret ("Error counting shipments: " ++ to_str (error response))
  else
    let count := nullish_or (oget (data response) "count") (JNum 0) in
    let statusText :=
      if truthy (assoc_get "status" params)
      then " with status " ++ dq ++ to_str (assoc_get "status" params) ++ dq
      else "" in
    Ret ("Total shipments" ++ statusText ++ ": " ++ to_str count).

End Shipments.

(** ** Batch tools ([src/tools/batches.ts]) *)

Module Batches.

Definition summary (b : jsval) : io string :=
  _ <- get b "id" ;;
  let f := oget b in
  Ret (lines_join
    (["ID: " ++ to_str (f "id"); "Status: " ++ to_str (f "status")]
     ++ line_if (f "description") (fun x => "Description: " ++ x)
     ++ (if negb (is_undef (f "shipment_count"))
         then ["Shipments: " ++ to_str (f "shipment_count")] else [])
     ++ ["Created: " ++ to_str (f "created_at")])).

Definition listBatches (e : env) (params : list (string * jsval)) : io string :=
  let qp := (set_if params "limit" ++ set_if params "page"
             ++ set_if params "status")%list in
  response <- client_get (client e) (with_query "/batches" qp) ;;
  if truthy (error response) then
    Ret ("Error listing batches: " ++ to_str (error response))
  else
    let batches := js_or (data response) (JArr []) in
    len <- get batches "length" ;;
    if is_zero len then Ret "No batches found."
    else
      formatted <- js_map "batches" batches summary ;;
      Ret ("Found " ++ to_str len ++ " batch(es):" ++ nl ++ nl
           ++ String.concat (nl ++ nl ++ "---" ++ nl ++ nl) formatted).

Definition createBatch (e : env) (params : list (string * jsval)) : io string :=
  response <- client_post (client e) "/batches"
                (Some (JObj (fwd params "description"))) ;;
  if truthy (error response) then
    Ret ("Error creating batch: " ++ to_str (error response))
  else
    let b := oget (data response) "batch" in
    if negb (truthy b) then Ret "Batch created but no data returned."
    else
      Ret ("Batch created successfully!" ++ nl ++ nl ++ "ID: " ++ to_str (oget b "id")
           ++ nl ++ "Status: " ++ to_str (oget b "status")
           ++ (if truthy (oget b "description")
               then nl ++ "Description: " ++ to_str (oget b "description") else "")).

Definition getBatch (e : env) (params : list (string * jsval)) : io string :=
  let id := to_str (assoc_get "id" params) in
  response <- client_get (client e) ("/batches/" ++ id) ;;
  if truthy (error response) then
    Ret ("Error getting batch: " ++ to_str (error response))
  else
    let b := oget (data response) "batch" in
    if negb (truthy b) then Ret ("Batch " ++ id ++ " not found.")
    else
      let f := oget b in
      Ret (lines_join
        (["## Batch " ++ to_str (f "id"); ""; "**Status:** " ++ to_str (f "status")]
         ++ line_if (f "description") (fun x => "**Description:** " ++ x)
         ++ (if negb (is_undef (f "shipment_count"))
             then ["**Shipments:** " ++ to_str (f "shipment_count")] else [])
         ++ ["**Created:** " ++ to_str (f "created_at")])).

Definition deleteBatch (e : env) (params : list (string * jsval)) : io string :=
  let id := to_str (assoc_get "id" params) in
  response <- client_delete (client e) ("/batches/" ++ id) ;;
  if truthy (error response) then
    Ret ("Error deleting batch: " ++ to_str (error response)
         ++ ". Note: Only empty batches can be deleted.")
  else Ret ("Batch " ++ id ++ " deleted successfully.").

Definition addToBatch (e : env) (params : list (string * jsval)) : io string :=
  let body := [("batch_id", assoc_get "batch_id" params);
               ("shipment_ids", assoc_get "shipment_ids" params)] in
  response <- client_patch (client e) "/shipments/add_to_batch" (Some (JObj body)) ;;
  if truthy (error response) then
    Ret ("Error adding shipments to batch: " ++ to_str (error response))
  else
    Ret ("Successfully added " ++ to_str (oget (assoc_get "shipment_ids" params) "length")
         ++ " shipment(s) to batch " ++ to_str (assoc_get "batch_id" params) ++ ".").

Definition removeFromBatch (e : env) (params : list (string * jsval)) : io string :=
  let body := [("shipment_ids", assoc_get "shipment_ids" params)] in
  response <- client_patch (client e) "/shipments/remove_from_batch" (Some (JObj body)) ;;
  if truthy (error response) then
    Ret ("Error removing shipments from batch: " ++ to_str (error response))
  else
    Ret ("Successfully removed "
         ++ to_str (oget (assoc_get "shipment_ids" params) "length")
         ++ " shipment(s) from their batches.").

Definition countBatches (e : env) (params : list (string * jsval)) : io string :=
  response <- client_get (client e)
                (with_query "/batches/count" (set_if params "status")) ;;
  if truthy (error response) then
    Ret ("Error counting batches: " ++ to_str (error response))
  else
    let count := nullish_or (oget (data response) "count") (JNum 0) in
    let statusText :=
      if truthy (assoc_get "status" params)
      then " with status " ++ dq ++ to_str (assoc_get "status" params) ++ dq
      else "" in
    Ret ("Total batches" ++ statusText ++ ": " ++ to_str count).

End Batches.

(** ** Return tools ([src/tools/returns.ts]) *)

Module Returns.

Definition summary (r : jsval) : io string :=
  _ <- get r "id" ;;
  let f := oget r in
  Ret (lines_join
    (["ID: " ++ to_str (f "id"); "Status: " ++ to_str (f "status")]
     ++ line_if (f "reason") (fun x => "Reason: " ++ x)
     ++ line_if (f "shipment_id") (fun x => "Shipment ID: " ++ x)
     ++ ["Created: " ++ to_str (f "created_at")])).

Definition listReturns (e : env) (params : list (string * jsval)) : io string :=
  let qp := (set_if params "limit" ++ set_if params "page"
             ++ set_if params "status" ++ set_if params "reason")%list in
  response <- client_get (client e) (with_query "/returns" qp) ;;
  if truthy (error response) then
    Ret ("Error listing returns: " ++ to_str (error response))
  else
    let returns := js_or (data response) (JArr []) in
    len <- get returns "length" ;;
    if is_zero len then Ret "No returns found matching your criteria."
    else
      formatted <- js_map "returns" returns summary ;;
      Ret ("Found " ++ to_str len ++ " return(s):" ++ nl ++ nl
           ++ String.concat (nl ++ nl ++ "---" ++ nl ++ nl) formatted).

End Returns.

(** ** Tracking tool ([src/tools/tracking.ts]) *)

Module Tracking.

Definition event_line (event : jsval) : io (list string) :=
  _ <- get event "location" ;;
  let f := oget event in
  let location := if truthy (f "location") then " (" ++ to_str (f "location") ++ ")"
                  else "" in
  ret_lines ["- **" ++ to_str (f "date") ++ ":** " ++ to_str (f "description")
             ++ location].

Definition trackShipment (e : env) (params : list (string * jsval)) : io string :=
  let id := to_str (assoc_get "id" params) in
  response <- getPublicTracking e id ;;
  if truthy (error response) then
    Ret ("Error getting tracking: " ++ to_str (error response))
  else
    let tracking := data response in
    if negb (truthy tracking) then
      Ret ("No tracking information found for shipment " ++ id ++ ".")
    else
      let f := oget tracking in
      events <- Shipments.each_nonempty "tracking.events" (f "events")
                  [""; "### Tracking History"] event_line ;;
      Ret (lines_join
        (["## Tracking for Shipment " ++ id; "";
          "**Status:** " ++ to_str (js_or (f "status") (JStr "Unknown"))]
         ++ line_if (f "carrier") (fun x => "**Carrier:** " ++ x)
         ++ line_if (f "tracking_number") (fun x => "**Tracking Number:** " ++ x)
         ++ line_if (f "estimated_delivery") (fun x => "**Estimated Delivery:** " ++ x)
         ++ events)).

End Tracking.

(** ** The call-tool handler ([src/index.ts]) *)

(** One [case] of the [switch (name)]: the handler is called on
    [schema.parse(args || {})] when [tc_default_args] holds, and on
    [schema.parse(args)] otherwise. *)
Record tool_case : Type := mk_case {
  tc_name : string;
  tc_schema : zschema;
  tc_default_args : bool;
  tc_handler : env -> list (string * jsval) -> io string
}.

Definition cases : list tool_case :=
  [mk_case "chitchats_list_shipments" ListShipmentsSchema true Shipments.listShipments;
   mk_case "chitchats_get_shipment" GetShipmentSchema false Shipments.getShipment;
   mk_case "chitchats_get_rates" GetShipmentSchema false Shipments.getShipmentRates;
   mk_case "chitchats_get_labels" GetShipmentSchema false Shipments.getShipmentLabels;
   mk_case "chitchats_get_line_items" GetShipmentSchema false Shipments.getShipmentLineItems;
   mk_case "chitchats_create_shipment" CreateShipmentSchema false Shipments.createShipment;
   mk_case "chitchats_delete_shipment" DeleteShipmentSchema false Shipments.deleteShipment;
   mk_case "chitchats_buy_postage" BuyPostageSchema false Shipments.buyPostage;
   mk_case "chitchats_refund_shipment" RefundShipmentSchema false Shipments.refundShipment;
   mk_case "chitchats_refresh_rates" RefreshRatesSchema false Shipments.refreshRates;
   mk_case "chitchats_count_shipments" CountShipmentsSchema true Shipments.countShipments;
   mk_case "chitchats_list_batches" ListBatchesSchema true Batches.listBatches;
   mk_case "chitchats_create_batch" CreateBatchSchema true Batches.createBatch;
   mk_case "chitchats_get_batch" GetBatchSchema false Batches.getBatch;
   mk_case "chitchats_delete_batch" DeleteBatchSchema false Batches.deleteBatch;
   mk_case "chitchats_add_to_batch" AddToBatchSchema false Batches.addToBatch;
   mk_case "chitchats_remove_from_batch" RemoveFromBatchSchema false Batches.removeFromBatch;
   mk_case "chitchats_count_batches" CountBatchesSchema true Batches.countBatches;
   mk_case "chitchats_list_returns" ListReturnsSchema true Returns.listReturns;
   mk_case "chitchats_track_shipment" TrackShipmentSchema false Tracking.trackShipment].

(** [switch (name)]: the first case whose label is [name]. *)
Fixpoint lookup_case (name : string) (l : list tool_case) : option tool_case :=
  match l with
  | [] => None
  | c :: l' => if String.eqb name (tc_name c) then Some c else lookup_case name l'
  end.

Definition parse_args (c : tool_case) (args : jsval) : jsval :=
  if tc_default_args c then js_or args (JObj []) else args.

(** [result = await handler(Schema.parse(...))]. *)
Definition case_body (e : env) (c : tool_case) (args : jsval) : io string :=
  params <- zod_parse (tc_schema c) (parse_args c args) ;;
  tc_handler c e params.

(** [{ content: [{ type: "text", text }], isError }]; [None] is a result
    object without an [isError] property. *)
Record CallToolResult : Type := mk_result {
  text : string;
  isError : option bool
}.

(** The error flag as the protocol reads it: an absent [isError] is false. *)
Definition is_error (r : CallToolResult) : bool :=
  match isError r with Some b => b | None => false end.

(** The [CallToolRequestSchema] handler; [args] is [request.params.arguments]
    ([JUndef] when the request carries none). *)
Definition call_tool (e : env) (name : string) (args : jsval) : io CallToolResult :=
  catch_io
    (match lookup_case name cases with
     | None => Ret {| text := "Unknown tool: " ++ name; isError := Some true |}
     | Some c =>
         result <- case_body e c args ;;
         Ret {| text := result; isError := None |}
     end)
    (fun message => Ret {| text := "Error: " ++ message; isError := Some true |}).

(** ** Concrete configurations and the violations the validator rejects *)

(** A fully configured process environment. *)
Definition configured_env : env :=
  mk_env (Some "client42") (Some "token42") None.

(** A process environment without client identifier or access token. *)
Definition unconfigured_env : env := mk_env None None None.

(** A declared field of schema [s] that the object [fs] violates: a
    missing required field, a number outside a declared bound, or a string
    outside a declared enumeration. *)
Inductive violation (s : zschema) (fs : list (string * jsval)) : string -> Prop :=
| missing_required f :
    In f s -> zf_optional f = false -> assoc_get (zf_name f) fs = JUndef ->
    violation s fs (zf_name f)
| below_min f lo hi n :
    In f s -> zf_type f = ZNumber (Some lo) hi -> assoc_get (zf_name f) fs = JNum n ->
    n < lo -> violation s fs (zf_name f)
| above_max f lo hi n :
    In f s -> zf_type f = ZNumber lo (Some hi) -> assoc_get (zf_name f) fs = JNum n ->
    hi < n -> violation s fs (zf_name f)
| not_in_enum f vals x :
    In f s -> zf_type f = ZEnum vals -> assoc_get (zf_name f) fs = JStr x ->
    ~ In x vals -> violation s fs (zf_name f).

(** Raw arguments that a case's schema rejects: an object violating one of
    its fields, or no arguments at all for a case that does not default
    them to [{}] and declares a required field. *)
Inductive bad_args (c : tool_case) : jsval -> option string -> Prop :=
| bad_field fs fname :
    violation (tc_schema c) fs fname -> bad_args c (JObj fs) (Some fname)
| bad_no_arguments f :
    tc_default_args c = false -> In f (tc_schema c) -> zf_optional f = false ->
    bad_args c JUndef None.

(** Arguments of a shipment creation: all required fields, two optional
    fields present with falsy values, one present with a truthy value, and
    one undeclared field. *)
Definition sample_shipment_args : list (string * jsval) :=
  [("name", JStr "Ada"); ("address_1", JStr "1 Main St"); ("city", JStr "Toronto");
   ("province_code", JStr "ON"); ("postal_code", JStr "M5V 1A1");
   ("country_code", JStr "CA"); ("size_x", JNum 0); ("description", JStr "");
   ("weight", JNum 5); ("gift", JBool true)].

(** ** The advertised tool list ([tools] in [src/index.ts]) *)

(** The JSON Schema type of an advertised property: [{type: "string"}],
    [{type: "number"}], [{type: "string", enum: [...]}] or
    [{type: "array", items: {type: "string"}}]. *)
Inductive jtype : Type :=
| JTString
| JTNumber
| JTEnum (vals : list string)
| JTStringArray.

(** One entry of [tools]: its name, the properties of its [inputSchema] in
    order, its [required] list (absent is []), and its annotations (an
    absent hint is false).  The free-text descriptions are left out. *)
Record tool : Type := mk_tool {
  td_name : string;
  td_properties : list (string * jtype);
  td_required : list string;
  td_readOnlyHint : bool;
  td_destructiveHint : bool
}.

Definition id_only : list (string * jtype) := [("id", JTString)].

Definition tools : list tool :=
  [mk_tool "chitchats_list_shipments"
     [("limit", JTNumber); ("page", JTNumber); ("batch_id", JTString);
      ("status", JTString); ("from_date", JTString); ("to_date", JTString);
      ("search", JTString)] [] true false;
   mk_tool "chitchats_get_shipment" id_only ["id"] true false;
   mk_tool "chitchats_get_rates" id_only ["id"] true false;
   mk_tool "chitchats_get_labels" id_only ["id"] true false;
   mk_tool "chitchats_get_line_items" id_only ["id"] true false;
   mk_tool "chitchats_create_shipment"
     [("name", JTString); ("address_1", JTString); ("address_2", JTString);
      ("city", JTString); ("province_code", JTString); ("postal_code", JTString);
      ("country_code", JTString); ("phone", JTString); ("email", JTString);
      ("package_type", JTEnum ["parcel"; "thick_envelope"; "flat_rate_envelope"]);
      ("size_unit", JTEnum ["cm"; "in"]);
      ("size_x", JTNumber); ("size_y", JTNumber); ("size_z", JTNumber);
      ("weight_unit", JTEnum ["g"; "kg"; "oz"; "lb"]);
      ("weight", JTNumber); ("description", JTString); ("value", JTNumber);
      ("value_currency", JTEnum ["CAD"; "USD"]);
      ("order_id", JTString); ("order_store", JTString); ("postage_type", JTString)]
     ["name"; "address_1"; "city"; "province_code"; "postal_code"; "country_code"]
     false false;
   mk_tool "chitchats_delete_shipment" id_only ["id"] false true;
   mk_tool "chitchats_buy_postage" id_only ["id"] false false;
   mk_tool "chitchats_refund_shipment" id_only ["id"] false false;
   mk_tool "chitchats_refresh_rates"
     [("id", JTString); ("size_x", JTNumber); ("size_y", JTNumber);
      ("size_z", JTNumber); ("weight", JTNumber)] ["id"] false false;
   mk_tool "chitchats_count_shipments" [("status", JTString)] [] true false;
   mk_tool "chitchats_list_batches"
     [("limit", JTNumber); ("page", JTNumber);
      ("status", JTEnum ["pending"; "received"])] [] true false;
   mk_tool "chitchats_create_batch" [("description", JTString)] [] false false;
   mk_tool "chitchats_get_batch" id_only ["id"] true false;
   mk_tool "chitchats_delete_batch" id_only ["id"] false true;
   mk_tool "chitchats_add_to_batch"
     [("batch_id", JTString); ("shipment_ids", JTStringArray)]
     ["batch_id"; "shipment_ids"] false false;
   mk_tool "chitchats_remove_from_batch" [("shipment_ids", JTStringArray)]
     ["shipment_ids"] false false;
   mk_tool "chitchats_count_batches" [("status", JTEnum ["pending"; "received"])]
     [] true false;
   mk_tool "chitchats_list_returns"
     [("limit", JTNumber); ("page", JTNumber); ("status", JTString);
      ("reason", JTString)] [] true false;
   mk_tool "chitchats_track_shipment" id_only ["id"] true false].

(** The [ListToolsRequestSchema] handler. *)
Definition list_tools : list tool := tools.

(** The JSON Schema type that describes the values a zod field type accepts
    (bounds of [z.number()] have no counterpart in the advertised schema). *)
Definition advertised_type (t : ztype) : jtype :=
  match t with
  | ZString => JTString
  | ZNumber _ _ => JTNumber
  | ZEnum vals => JTEnum vals
  | ZStringArray => JTStringArray
  end.

(** An advertised tool agrees with the [case] that dispatches it: same name,
    the schema's fields as properties in the same order with matching
    types, and the schema's required fields as [required]. *)
Definition tool_agrees (t : tool) (c : tool_case) : Prop :=
  td_name t = tc_name c /\
  td_properties t = map (fun f => (zf_name f, advertised_type (zf_type f))) (tc_schema c) /\
  td_required t = map zf_name (filter (fun f => negb (zf_optional f)) (tc_schema c)).

(** ** Bounds on the requests a program sends *)

(** [sends P n m]: every run of [m] sends at most [n] requests, each
    satisfying [P]. *)
Inductive sends {A} (P : request -> Prop) : nat -> io A -> Prop :=
| sends_ret n a : sends P n (Ret a)
| sends_throw n msg : sends P n (Throw msg)
| sends_fetch n r k : P r -> (forall x, sends P n (k x)) -> sends P (S n) (Fetch r k).

(** ** Execution lemmas *)

Lemma run_bind {A B} (remote : request -> fetch_result) (m : io A) (f : A -> io B) :
  run remote (bind m f) =
  let '(rs1, o) := run remote m in
  match o with
  | Done a => let '(rs2, o2) := run remote (f a) in ((rs1 ++ rs2)%list, o2)
  | Raised e => (rs1, Raised e)
  end.
Proof.
  induction m as [a | e | r k IH]; simpl.
  - destruct (run remote (f a)); reflexivity.
  - reflexivity.
  - rewrite IH. destruct (run remote (k (remote r))) as [rs o].
    destruct o as [a | e]; [destruct (run remote (f a)) |]; reflexivity.
Qed.

Lemma run_catch {A} (remote : request -> fetch_result) (m : io A)
  (h : string -> io A) :
  run remote (catch_io m h) =
  let '(rs1, o) := run remote m in
  match o with
  | Done a => (rs1, Done a)
  | Raised e => let '(rs2, o2) := run remote (h e) in ((rs1 ++ rs2)%list, o2)
  end.
Proof.
  induction m as [a | e | r k IH]; simpl.
  - reflexivity.
  - destruct (run remote (h e)); reflexivity.
  - rewrite IH. destruct (run remote (k (remote r))) as [rs o].
    destruct o as [a | e]; [| destruct (run remote (h e))]; reflexivity.
Qed.

(** A program's run depends on the remote endpoint only through the answers
    to the requests it sends. *)
Lemma run_agree {A} (remote1 remote2 : request -> fetch_result) (m : io A) :
  (forall r, In r (fst (run remote1 m)) -> remote1 r = remote2 r) ->
  run remote1 m = run remote2 m.
Proof.
  induction m as [a | e | r k IH]; simpl; intros Hagree.
  - reflexivity.
  - reflexivity.
  - assert (Hk : run remote1 (k (remote1 r)) = run remote2 (k (remote2 r))).
    { assert (Hr : remote1 r = remote2 r).
      { apply Hagree. destruct (run remote1 (k (remote1 r))). left. reflexivity. }
      rewrite <- Hr. apply IH.
      intros r' Hin. apply Hagree.
      destruct (run remote1 (k (remote1 r))) as [rs o]. simpl in *. right. exact Hin. }
    rewrite Hk. reflexivity.
Qed.

Lemma lookup_case_none (name : string) (l : list tool_case) :
  ~ In name (map tc_name l) -> lookup_case name l = None.
Proof.
  induction l as [| c l IH]; simpl; intros Hn; [reflexivity |].
  destruct (String.eqb_spec name (tc_name c)) as [Heq | Hne].
  - exfalso. apply Hn. left. symmetry. exact Heq.
  - apply IH. intros Hin. apply Hn. right. exact Hin.
Qed.

Lemma lookup_case_in (c : tool_case) :
  In c cases -> lookup_case (tc_name c) cases = Some c.
Proof.
  intros Hin. simpl in Hin.
  repeat (destruct Hin as [<- | Hin]; [reflexivity |]). contradiction.
Qed.

Lemma call_tool_case (e : env) (remote : request -> fetch_result) (c : tool_case)
  (args : jsval) :
  lookup_case (tc_name c) cases = Some c ->
  run remote (call_tool e (tc_name c) args) =
  let '(rs, o) := run remote (case_body e c args) in
  (rs, Done (match o with
             | Done t => {| text := t; isError := None |}
             | Raised m => {| text := "Error: " ++ m; isError := Some true |}
             end)).
Proof.
  intros Hl. unfold call_tool. rewrite run_catch, Hl, run_bind.
  destruct (run remote (case_body e c args)) as [rs [t | m]]; simpl.
  - rewrite app_nil_r. reflexivity.
  - rewrite app_nil_r. reflexivity.
Qed.

Lemma in_flat_map_path (fs : list (string * jsval)) (s : zschema) (fname : string) :
  violation s fs fname ->
  exists i, In i (flat_map (check_field fs) s) /\ iss_path i = JArr [JStr fname].
Proof.
  intros V.
  assert (Hf : exists f, In f s /\ zf_name f = fname /\
                 exists i, In i (check_field fs f) /\ iss_path i = JArr [JStr fname]).
  { destruct V as [f Hin Hopt Hv | f lo hi n Hin Ht Hv Hlt
                  | f lo hi n Hin Ht Hv Hlt | f vals x Hin Ht Hv Hnot];
      exists f; (split; [exact Hin | split; [reflexivity |]]); unfold check_field.
    - rewrite Hv, Hopt. simpl.
      destruct (zf_type f); simpl; eexists; split; try (left; reflexivity); reflexivity.
    - rewrite Hv, Ht. destruct (zf_optional f); simpl;
        rewrite (proj2 (Z.ltb_lt n lo) Hlt);
        eexists; split; try (apply in_or_app; left; left; reflexivity); reflexivity.
    - rewrite Hv, Ht. destruct (zf_optional f); simpl;
        rewrite (proj2 (Z.ltb_lt hi n) Hlt);
        eexists; split; try (apply in_or_app; right; left; reflexivity); reflexivity.
    - rewrite Hv, Ht.
      assert (Hex : existsb (String.eqb x) vals = false).
      { destruct (existsb (String.eqb x) vals) eqn:E; [| reflexivity].
        apply existsb_exists in E. destruct E as [y [Hy Heq]].
        apply String.eqb_eq in Heq. subst y. contradiction. }
      destruct (zf_optional f); simpl; rewrite Hex;
        eexists; split; try (left; reflexivity); reflexivity. }
  destruct Hf as [f [Hin [_ [i [Hi Hp]]]]].
  exists i. split; [| exact Hp]. apply in_flat_map. exists f. split; assumption.
Qed.

(** C7: every operation name outside the registry yields
    [{ text: "Unknown tool: <name>", isError: true }] without sending any
    request and without validating the arguments. *)
Theorem unknown_tool_outcome (e : env) (remote : request -> fetch_result)
  (name : string) (args : jsval) :
  ~ In name (map tc_name cases) ->
  run remote (call_tool e name args) =
  ([], Done {| text := "Unknown tool: " ++ name; isError := Some true |}).
Proof.
  intros Hn. unfold call_tool. rewrite run_catch, (lookup_case_none name cases Hn).
  reflexivity.
Qed.

Lemma unknown_tool_outcome_witness :
  ~ In "chitchats_cancel_everything" (map tc_name cases) /\
  run (fun _ => Rejected "fetch failed")
      (call_tool configured_env "chitchats_cancel_everything" (JObj [])) =
  ([], Done {| text := "Unknown tool: chitchats_cancel_everything";
               isError := Some true |}).
Proof.
  assert (Hn : ~ In "chitchats_cancel_everything" (map tc_name cases)).
  { simpl. intros H. repeat (destruct H as [H | H]; [discriminate H |]). exact H. }
  split; [exact Hn |].
  apply (unknown_tool_outcome configured_env (fun _ => Rejected "fetch failed")
           "chitchats_cancel_everything" (JObj []) Hn).
Defined.

(** The validation message for three sample inputs, as [ZodError.message]
    prints it: a missing required string, a number below its minimum and a
    value outside an enumeration. *)
Lemma zod_message_samples :
  zod_parse GetShipmentSchema (JObj [("shipment", JStr "S1")]) =
  Throw (unbackquote "[
  {
    `code`: `invalid_type`,
    `expected`: `string`,
    `received`: `undefined`,
    `path`: [
      `id`
    ],
    `message`: `Required`
  }
]") /\
  zod_parse ListShipmentsSchema (JObj [("limit", JNum 0)]) =
  Throw (unbackquote "[
  {
    `code`: `too_small`,
    `minimum`: 1,
    `type`: `number`,
    `inclusive`: true,
    `exact`: false,
    `message`: `Number must be greater than or equal to 1`,
    `path`: [
      `limit`
    ]
  }
]") /\
  zod_parse ListBatchesSchema (JObj [("status", JStr "x")]) =
  Throw (unbackquote "[
  {
    `received`: `x`,
    `code`: `invalid_enum_value`,
    `options`: [
      `pending`,
      `received`
    ],
    `path`: [
      `status`
    ],
    `message`: `Invalid enum value. Expected 'pending' | 'received', received 'x'`
  }
]").
Proof. split; [| split]; vm_compute; reflexivity. Qed.

(** C5: for every registered operation, raw arguments that miss a required
    field of its schema, break a numeric bound or fall outside an
    enumeration make the dispatch return [isError: true] with the text
    "Error: " followed by the validation message, whose issues name the
    offending field; no request is sent. *)
Theorem invalid_arguments_no_network (e : env) (remote : request -> fetch_result)
  (c : tool_case) (args : jsval) (fld : option string) :
  In c cases -> bad_args c args fld ->
  exists iss,
    run remote (call_tool e (tc_name c) args) =
    ([], Done {| text := "Error: " ++ zod_message iss; isError := Some true |}) /\
    match fld with
    | Some fname => exists i, In i iss /\ iss_path i = JArr [JStr fname]
    | None => iss <> []
    end.
Proof.
  intros Hin Hbad. rewrite (call_tool_case e remote c args (lookup_case_in c Hin)).
  unfold case_body. rewrite run_bind.
  destruct Hbad as [fs fname V | f Hdef Hf Hopt].
  - destruct (in_flat_map_path fs (tc_schema c) fname V) as [i [Hi Hp]].
    assert (Hpa : parse_args c (JObj fs) = JObj fs).
    { unfold parse_args. destruct (tc_default_args c); reflexivity. }
    unfold zod_parse. rewrite Hpa. simpl.
    destruct (flat_map (check_field fs) (tc_schema c)) as [| i0 l] eqn:E.
    + contradiction.
    + exists (i0 :: l). split; [reflexivity |]. exists i. split; assumption.
  - unfold parse_args, zod_parse. rewrite Hdef. simpl.
    eexists. split; [reflexivity | discriminate].
Qed.

Lemma invalid_arguments_no_network_witness :
  In (mk_case "chitchats_get_shipment" GetShipmentSchema false Shipments.getShipment)
     cases /\
  bad_args (mk_case "chitchats_get_shipment" GetShipmentSchema false Shipments.getShipment)
           (JObj [("shipment", JStr "S1")]) (Some "id") /\
  exists iss,
    run (fun _ => Responded 200 None (BodyJson (JObj [])))
        (call_tool configured_env "chitchats_get_shipment" (JObj [("shipment", JStr "S1")])) =
    ([], Done {| text := "Error: " ++ zod_message iss; isError := Some true |}) /\
    exists i, In i iss /\ iss_path i = JArr [JStr "id"].
Proof.
  assert (Hin : In (mk_case "chitchats_get_shipment" GetShipmentSchema false
                      Shipments.getShipment) cases).
  { simpl. right. left. reflexivity. }
  assert (Hb : bad_args (mk_case "chitchats_get_shipment" GetShipmentSchema false
                           Shipments.getShipment)
                 (JObj [("shipment", JStr "S1")]) (Some "id")).
  { apply bad_field.
    apply (missing_required _ _ (req "id" ZString)); [left; reflexivity | reflexivity | reflexivity]. }
  split; [exact Hin | split; [exact Hb |]].
  exact (invalid_arguments_no_network configured_env
           (fun _ => Responded 200 None (BodyJson (JObj []))) _ _ _ Hin Hb).
Defined.

(** C1 (amended): every dispatch returns a result and never raises.  Its
    error flag is true exactly when the name is not registered or when
    validation or the handler throws; an unregistered name gives the text
    "Unknown tool: <name>", a thrown message m the text "Error: " ++ m;
    whenever the handler returns a text,
    including a text reporting a remote failure, the result carries that
    text and no [isError] property, which the protocol reads as false. *)
Theorem call_tool_error_flag (e : env) (remote : request -> fetch_result)
  (name : string) (args : jsval) :
  exists r,
    snd (run remote (call_tool e name args)) = Done r /\
    (is_error r = true <->
     lookup_case name cases = None \/
     exists c m, lookup_case name cases = Some c /\
                 snd (run remote (case_body e c args)) = Raised m) /\
    (lookup_case name cases = None ->
     r = {| text := "Unknown tool: " ++ name; isError := Some true |}) /\
    (forall c m, lookup_case name cases = Some c ->
                 snd (run remote (case_body e c args)) = Raised m ->
                 r = {| text := "Error: " ++ m; isError := Some true |}) /\
    (forall c t, lookup_case name cases = Some c ->
                 snd (run remote (case_body e c args)) = Done t ->
                 r = {| text := t; isError := None |}).
Proof.
  unfold call_tool. rewrite run_catch.
  destruct (lookup_case name cases) as [c |] eqn:Hl.
  - rewrite run_bind.
    destruct (run remote (case_body e c args)) as [rs [t | m]] eqn:Hrun; simpl.
    + exists {| text := t; isError := None |}. split; [reflexivity |]. split.
      * split; [discriminate |].
        intros [H | [c' [m [Hc Hm]]]]; [discriminate |].
        injection Hc as <-. rewrite Hrun in Hm. discriminate.
      * split; [discriminate | split].
        -- intros c' m Hc Hm. injection Hc as <-. rewrite Hrun in Hm. discriminate.
        -- intros c' t' Hc Ht. injection Hc as <-. rewrite Hrun in Ht.
        injection Ht as <-. reflexivity.
    + exists {| text := "Error: " ++ m; isError := Some true |}.
      split; [reflexivity |]. split.
      * split; [intros _ | reflexivity]. right. exists c, m. split; [reflexivity |].
        rewrite Hrun. reflexivity.
      * split; [discriminate | split].
        -- intros c' m' Hc Hm. injection Hc as <-. rewrite Hrun in Hm.
           injection Hm as <-. reflexivity.
        -- intros c' t' Hc Ht. injection Hc as <-. rewrite Hrun in Ht. discriminate.
  - simpl. exists {| text := "Unknown tool: " ++ name; isError := Some true |}.
    split; [reflexivity |]. split.
    + split; [intros _; left; reflexivity | reflexivity].
    + split; [reflexivity | split].
      * intros c m Hc. discriminate.
      * intros c t Hc. discriminate.
Qed.

(** C1 (counterexample): a rate-limited listing returns a text reporting
    the remote failure, yet the result has no [isError] property, so its
    error flag is false although no formatted success text was produced. *)
Lemma call_tool_remote_failure_unflagged :
  snd (run (fun _ => Responded 429 (Some "30") (BodyInvalid ""))
           (call_tool configured_env "chitchats_list_shipments" (JObj []))) =
  Done {| text := "Error listing shipments: Rate limited. Retry after 30 seconds.";
          isError := None |} /\
  is_error {| text := "Error listing shipments: Rate limited. Retry after 30 seconds.";
              isError := None |} = false.
Proof. split; reflexivity. Qed.

(** C9: a dispatch is a deterministic function of its arguments and of the
    remote answers: two dispatches of the same operation with the same
    arguments, against endpoints that answer the requests of the first one
    identically, send the same requests and return the same result (hence
    the same text).  This holds for every operation, read-only ones
    included. *)
Theorem call_tool_deterministic (e : env) (name : string) (args : jsval)
  (remote1 remote2 : request -> fetch_result) :
  (forall r, In r (fst (run remote1 (call_tool e name args))) -> remote1 r = remote2 r) ->
  run remote1 (call_tool e name args) = run remote2 (call_tool e name args).
Proof. apply run_agree. Qed.

Lemma call_tool_deterministic_witness :
  let answer := Responded 200 None
                  (BodyJson (JArr [JObj [("id", JStr "S1"); ("status", JStr "ready")]])) in
  let remote1 := fun _ : request => answer in
  let remote2 := fun r : request =>
    if String.eqb (rq_url r) "https://chitchats.com/api/v1/clients/client42/shipments"
    then answer else Rejected "fetch failed" in
  (forall r, In r (fst (run remote1 (call_tool configured_env
                                        "chitchats_list_shipments" (JObj []))))
             -> remote1 r = remote2 r) /\
  run remote1 (call_tool configured_env "chitchats_list_shipments" (JObj [])) =
  run remote2 (call_tool configured_env "chitchats_list_shipments" (JObj [])).
Proof.
  intros answer remote1 remote2.
  assert (H : forall r, In r (fst (run remote1 (call_tool configured_env
                                                  "chitchats_list_shipments" (JObj []))))
                        -> remote1 r = remote2 r).
  { intros r Hin. vm_compute in Hin. destruct Hin as [<- | []]. reflexivity. }
  split; [exact H |].
  exact (call_tool_deterministic configured_env "chitchats_list_shipments" (JObj [])
           remote1 remote2 H).
Defined.

Lemma string_app_assoc (a b c : string) : (a ++ b) ++ c = a ++ (b ++ c).
Proof. induction a as [| x a IH]; simpl; [reflexivity | now rewrite IH]. Qed.

(** Every authenticated call sends exactly one request, with the
    credential header, to the base authority followed by the endpoint. *)
Lemma request_sends_one (c : ChitChatsClient) (remote : request -> fetch_result)
  (method endpoint : string) (reqbody : option jsval) :
  fst (run remote (request_ c method endpoint reqbody)) =
  [mk_request (baseUrl c ++ endpoint) method (request_headers c reqbody) reqbody].
Proof.
  unfold request_; simpl.
  destruct (remote _) as [st ra [v | msg] | msg]; simpl; try reflexivity;
    destruct (st =? 429); simpl; try reflexivity;
    destruct (st =? 204); simpl; try reflexivity.
  destruct (negb (response_ok st)); simpl; [| reflexivity].
  destruct v; simpl; try reflexivity.
  destruct (truthy (assoc_get "error" fields)); reflexivity.
Qed.

(** C2 (amended): a 429 response becomes
    [{ error: "Rate limited. Retry after <h> seconds.", status: 429 }] with no
    data, where <h> is the text of the Retry-After header when it is present
    and non-empty and the word "unknown" otherwise; the hint is carried only
    inside the message, never parsed into a number. *)
Theorem request_rate_limited (c : ChitChatsClient) (method endpoint : string)
  (reqbody : option jsval) (retryAfter : option string) (b : body) :
  run (fun _ => Responded 429 retryAfter b) (request_ c method endpoint reqbody) =
  ([mk_request (baseUrl c ++ endpoint) method (request_headers c reqbody) reqbody],
   Done {| data := JUndef;
           error := JStr ("Rate limited. Retry after " ++ str_or retryAfter "unknown"
                          ++ " seconds.");
           status := 429 |}).
Proof. reflexivity. Qed.

(** C2 (counterexample): with [Retry-After: 30] the result has no numeric
    retry hint (its only number is the status 429, and the 30 occurs only in
    the message text); without the header the message says "unknown". *)
Lemma request_rate_limited_hint_is_text :
  snd (run (fun _ => Responded 429 (Some "30") (BodyInvalid ""))
           (client_get (client configured_env) "/shipments")) =
  Done {| data := JUndef; error := JStr "Rate limited. Retry after 30 seconds.";
          status := 429 |} /\
  status {| data := JUndef; error := JStr "Rate limited. Retry after 30 seconds.";
            status := 429 |} <> 30 /\
  snd (run (fun _ => Responded 429 None (BodyInvalid ""))
           (client_get (client configured_env) "/shipments")) =
  Done {| data := JUndef; error := JStr "Rate limited. Retry after unknown seconds.";
          status := 429 |}.
Proof. split; [reflexivity | split; [discriminate | reflexivity]]. Qed.

(** C3 (amended): when the client identifier or the access token is absent
    (or empty), the module only writes a warning to stderr; every
    authenticated call still sends its one request, with the possibly empty
    token as Authorization value and "undefined" in the path when the
    identifier is absent. *)
Theorem missing_credentials_request_sent (e : env) (remote : request -> fetch_result)
  (method endpoint : string) (reqbody : option jsval) :
  str_or (CHITCHATS_CLIENT_ID e) "" = "" \/ str_or (CHITCHATS_ACCESS_TOKEN e) "" = "" ->
  startup_log e = ["Missing CHITCHATS_CLIENT_ID or CHITCHATS_ACCESS_TOKEN in environment"] /\
  fst (run remote (request_ (client e) method endpoint reqbody)) =
  [mk_request (BASE_URL e ++ "/api/v1/clients/" ++ str_templ (CHITCHATS_CLIENT_ID e)
               ++ endpoint)
     method
     ([("Authorization", str_or (CHITCHATS_ACCESS_TOKEN e) "");
       ("Accept", "application/json")]
      ++ match reqbody with Some _ => [("Content-Type", "application/json")] | None => [] end)
     reqbody].
Proof.
  intros Hmiss. split.
  - unfold startup_log. destruct Hmiss as [H | H]; rewrite H; simpl.
    + reflexivity.
    + destruct (String.eqb (str_or (CHITCHATS_CLIENT_ID e) "") ""); reflexivity.
  - rewrite request_sends_one. unfold client, new_client. simpl.
    rewrite !string_app_assoc. reflexivity.
Qed.

Lemma missing_credentials_request_sent_witness :
  (str_or (CHITCHATS_CLIENT_ID unconfigured_env) "" = ""
   \/ str_or (CHITCHATS_ACCESS_TOKEN unconfigured_env) "" = "") /\
  startup_log unconfigured_env =
    ["Missing CHITCHATS_CLIENT_ID or CHITCHATS_ACCESS_TOKEN in environment"] /\
  fst (run (fun _ => Responded 200 None (BodyJson (JArr [])))
           (request_ (client unconfigured_env) "GET" "/shipments" None)) =
  [mk_request "https://chitchats.com/api/v1/clients/undefined/shipments" "GET"
     [("Authorization", ""); ("Accept", "application/json")] None].
Proof.
  assert (H : str_or (CHITCHATS_CLIENT_ID unconfigured_env) "" = ""
              \/ str_or (CHITCHATS_ACCESS_TOKEN unconfigured_env) "" = "")
    by (left; reflexivity).
  split; [exact H |].
  exact (missing_credentials_request_sent unconfigured_env
           (fun _ => Responded 200 None (BodyJson (JArr []))) "GET" "/shipments" None H).
Defined.

(** C3 (counterexample): with neither identifier nor token configured, a
    shipment listing still sends a request to the remote host. *)
Lemma missing_credentials_not_fail_closed :
  fst (run (fun _ => Responded 401 None (BodyJson (JObj [("error", JStr "Unauthorized")])))
           (call_tool unconfigured_env "chitchats_list_shipments" (JObj []))) =
  [mk_request "https://chitchats.com/api/v1/clients/undefined/shipments" "GET"
     [("Authorization", ""); ("Accept", "application/json")] None].
Proof. reflexivity. Qed.




(** C4 (divergence): the public tracking call does no status handling. Every
    response whose body parses is returned as [{ data: <body>, status }]
    without an [error], whatever the status (404, 429 or 500 alike); it
    sends no header at all. *)
Theorem public_tracking_no_normalization (e : env) (shipmentId : string) (st : Z)
  (retryAfter : option string) (v : jsval) :
  run (fun _ => Responded st retryAfter (BodyJson v)) (getPublicTracking e shipmentId) =
  ([mk_request (BASE_URL e ++ "/tracking/" ++ shipmentId ++ ".json") "GET" [] None],
   Done {| data := v; error := JUndef; status := st |}).
Proof. reflexivity. Qed.

(** C4 (failing input): a 404 with body [{"error":"not found"}] is reported
    by the tracking tool as a successful lookup of status "Unknown"; a 429
    with body [{}] likewise; and a 204 with its empty body becomes a parse
    failure (status 500) instead of an empty success. *)
Lemma public_tracking_error_reported_as_success :
  snd (run (fun _ => Responded 404 None (BodyJson (JObj [("error", JStr "not found")])))
           (call_tool configured_env "chitchats_track_shipment"
              (JObj [("id", JStr "ABC")]))) =
  Done {| text := "## Tracking for Shipment ABC" ++ nl ++ nl ++ "**Status:** Unknown";
          isError := None |} /\
  snd (run (fun _ => Responded 429 (Some "30") (BodyJson (JObj [])))
           (call_tool configured_env "chitchats_track_shipment"
              (JObj [("id", JStr "ABC")]))) =
  Done {| text := "## Tracking for Shipment ABC" ++ nl ++ nl ++ "**Status:** Unknown";
          isError := None |} /\
  snd (run (fun _ => Responded 204 None (BodyInvalid "Unexpected end of JSON input"))
           (getPublicTracking configured_env "ABC")) =
  Done {| data := JUndef; error := JStr "Unexpected end of JSON input"; status := 500 |}.
Proof. repeat split. Qed.

Lemma assoc_get_strip_output (s : zschema) (fs : list (string * jsval)) (k : string) :
  assoc_get k (strip_output s fs) =
  if existsb (String.eqb k) (map zf_name s) then assoc_get k fs else JUndef.
Proof.
  induction s as [| f s IH]; simpl; [reflexivity |].
  destruct (assoc_get (zf_name f) fs) eqn:Ev; simpl;
    destruct (String.eqb_spec k (zf_name f)) as [-> | Hne]; simpl;
    rewrite ?IH, ?Ev; try reflexivity;
    destruct (existsb (String.eqb (zf_name f)) (map zf_name s)); congruence.
Qed.

Lemma in_strip_output (s : zschema) (fs : list (string * jsval)) (k : string) (v : jsval) :
  In (k, v) (strip_output s fs) <->
  In k (map zf_name s) /\ assoc_get k fs = v /\ v <> JUndef.
Proof.
  unfold strip_output. rewrite in_flat_map, in_map_iff. split.
  - intros [f [Hf Hin]].
    destruct (assoc_get (zf_name f) fs) eqn:Ev; simpl in Hin;
      try contradiction;
      destruct Hin as [Heq | []]; injection Heq as <- <-;
      (split; [exists f; split; [reflexivity | exact Hf] | split; [exact Ev | discriminate]]).
  - intros [[f [<- Hf]] [Hv Hnu]]. exists f. split; [exact Hf |].
    rewrite Hv. destruct v; simpl; try (left; reflexivity). contradiction.
Qed.

Lemma fwd_keys (params : list (string * jsval)) (ks : list string) :
  map fst (List.concat (map (fwd params) ks)) =
  filter (fun k => truthy (assoc_get k params)) ks.
Proof.
  induction ks as [| k ks IH]; [reflexivity |].
  cbn [map List.concat filter]. rewrite map_app, IH.
  unfold fwd. destruct (truthy (assoc_get k params)); reflexivity.
Qed.

Lemma fwd_value (params : list (string * jsval)) (ks : list string) (k : string) :
  assoc_get k (List.concat (map (fwd params) ks)) =
  if existsb (String.eqb k) ks && truthy (assoc_get k params)
  then assoc_get k params else JUndef.
Proof.
  induction ks as [| k' ks IH]; [reflexivity |].
  cbn [map List.concat existsb]. unfold fwd at 1. cbv zeta.
  destruct (String.eqb_spec k k') as [<- | Hne].
  - cbn [orb andb].
    destruct (truthy (assoc_get k params)) eqn:Ht.
    + cbn [app assoc_get]. rewrite String.eqb_refl. reflexivity.
    + cbn [app]. rewrite IH, andb_false_r. reflexivity.
  - apply String.eqb_neq in Hne. cbn [orb].
    destruct (truthy (assoc_get k' params)); cbn [app assoc_get];
      [rewrite Hne |]; exact IH.
Qed.

Lemma assoc_get_app_absent (k : string) (l1 l2 : list (string * jsval)) :
  existsb (String.eqb k) (map fst l1) = false ->
  assoc_get k (l1 ++ l2) = assoc_get k l2.
Proof.
  induction l1 as [| [k' v] l1 IH]; simpl; intros H; [reflexivity |].
  apply orb_false_iff in H as [H1 H2]. rewrite H1. exact (IH H2).
Qed.

(** C6 (amended): validation keeps exactly the declared fields whose input
    value is not [undefined] and drops undeclared ones, for every schema.
    The shipment creation sends one POST whose body holds the six required
    fields and, of the optional ones, exactly those whose value is truthy:
    an optional field present with a falsy value ([0], [""], [false]) is
    validated and kept in the parameters but not forwarded. *)
Theorem create_shipment_forwards_truthy (e : env) (remote : request -> fetch_result)
  (fs out : list (string * jsval)) :
  zparse CreateShipmentSchema (JObj fs) = inr out ->
  (forall s fs' out' k v, zparse s (JObj fs') = inr out' ->
     In (k, v) out' <-> In k (map zf_name s) /\ assoc_get k fs' = v /\ v <> JUndef) /\
  fst (run remote (call_tool e "chitchats_create_shipment" (JObj fs))) =
    [mk_request (baseUrl (client e) ++ "/shipments") "POST"
       (request_headers (client e) (Some (JObj (Shipments.create_body out))))
       (Some (JObj (Shipments.create_body out)))] /\
  map fst (Shipments.create_body out) =
    (["name"; "address_1"; "city"; "province_code"; "postal_code"; "country_code"]
     ++ filter (fun k => truthy (assoc_get k fs)) Shipments.create_optional_fields)%list /\
  (forall k, In k Shipments.create_optional_fields ->
     assoc_get k (Shipments.create_body out) =
     if truthy (assoc_get k fs) then assoc_get k fs else JUndef).
Proof.
  intros Hz.
  assert (Hout : out = strip_output CreateShipmentSchema fs).
  { unfold zparse in Hz.
    destruct (flat_map (check_field fs) CreateShipmentSchema); [| discriminate].
    injection Hz as <-. reflexivity. }
  assert (Hopt : forall k, In k Shipments.create_optional_fields ->
            existsb (String.eqb k) (map zf_name CreateShipmentSchema) = true /\
            existsb (String.eqb k)
              ["name"; "address_1"; "city"; "province_code"; "postal_code"; "country_code"]
            = false).
  { intros k Hk. unfold Shipments.create_optional_fields in Hk.
    repeat (destruct Hk as [<- | Hk]; [split; reflexivity |]). destruct Hk. }
  assert (Hsame : forall k, In k Shipments.create_optional_fields -> assoc_get k out = assoc_get k fs).
  { intros k Hk. rewrite Hout, assoc_get_strip_output, (proj1 (Hopt k Hk)). reflexivity. }
  split; [| split; [| split]].
  - intros s fs' out' k v Hz'. unfold zparse in Hz'.
    destruct (flat_map (check_field fs') s); [| discriminate].
    injection Hz' as <-. apply in_strip_output.
  - set (c := mk_case "chitchats_create_shipment" CreateShipmentSchema false
                Shipments.createShipment).
    assert (Hc := call_tool_case e remote c (JObj fs) eq_refl).
    cbn [tc_name c] in Hc. rewrite Hc.
    assert (Hb : fst (run remote (case_body e c (JObj fs))) =
                 [mk_request (baseUrl (client e) ++ "/shipments") "POST"
                    (request_headers (client e) (Some (JObj (Shipments.create_body out))))
                    (Some (JObj (Shipments.create_body out)))]).
    { unfold case_body, parse_args, zod_parse. cbn [c tc_schema tc_handler tc_default_args].
      rewrite Hz, run_bind. cbn [run].
      unfold Shipments.createShipment, client_post. rewrite run_bind.
      pose proof (request_sends_one (client e) remote "POST" "/shipments"
                    (Some (JObj (Shipments.create_body out)))) as Hs.
      destruct (run remote (request_ (client e) "POST" "/shipments"
                              (Some (JObj (Shipments.create_body out))))) as [rs [r | m]].
      - simpl in Hs. subst rs.
        destruct (truthy (error r)); simpl; [reflexivity |].
        destruct (negb (truthy (oget (data r) "shipment"))); reflexivity.
      - exact Hs. }
    destruct (run remote (case_body e c (JObj fs))). exact Hb.
  - unfold Shipments.create_body. rewrite map_app, fwd_keys. f_equal.
    apply filter_ext_in. intros k Hk. rewrite Hsame by exact Hk. reflexivity.
  - intros k Hk. unfold Shipments.create_body.
    rewrite assoc_get_app_absent by exact (proj2 (Hopt k Hk)).
    rewrite fwd_value, Hsame by exact Hk.
    assert (Hex : existsb (String.eqb k) Shipments.create_optional_fields = true).
    { apply existsb_exists. exists k. split; [exact Hk | apply String.eqb_refl]. }
    rewrite Hex. reflexivity.
Qed.

Lemma create_shipment_forwards_truthy_witness :
  zparse CreateShipmentSchema (JObj sample_shipment_args)
    = inr (strip_output CreateShipmentSchema sample_shipment_args) /\
  map fst (Shipments.create_body (strip_output CreateShipmentSchema sample_shipment_args)) =
    (["name"; "address_1"; "city"; "province_code"; "postal_code"; "country_code"]
     ++ filter (fun k => truthy (assoc_get k sample_shipment_args))
          Shipments.create_optional_fields)%list.
Proof.
  assert (Hz : zparse CreateShipmentSchema (JObj sample_shipment_args)
               = inr (strip_output CreateShipmentSchema sample_shipment_args))
    by reflexivity.
  split; [exact Hz |].
  exact (proj1 (proj2 (proj2
    (create_shipment_forwards_truthy configured_env
       (fun _ => Responded 200 None (BodyJson (JObj [])))
       sample_shipment_args (strip_output CreateShipmentSchema sample_shipment_args) Hz)))).
Defined.

(** C6 (counterexample): [size_x: 0] and [description: ""] pass validation
    and are in the validated parameters, but the request body sent upstream
    carries neither; the undeclared [gift] is dropped as stated. *)
Lemma create_shipment_drops_falsy_fields :
  zparse CreateShipmentSchema (JObj sample_shipment_args) =
    inr [("name", JStr "Ada"); ("address_1", JStr "1 Main St"); ("city", JStr "Toronto");
         ("province_code", JStr "ON"); ("postal_code", JStr "M5V 1A1");
         ("country_code", JStr "CA"); ("size_x", JNum 0); ("weight", JNum 5);
         ("description", JStr "")] /\
  map (fun r => match rq_body r with Some (JObj b) => map fst b | _ => [] end)
    (fst (run (fun _ => Responded 200 None (BodyJson (JObj [])))
              (call_tool configured_env "chitchats_create_shipment"
                 (JObj sample_shipment_args)))) =
    [["name"; "address_1"; "city"; "province_code"; "postal_code"; "country_code";
      "weight"]].
Proof. split; vm_compute; reflexivity. Qed.

(** C10: when a count request succeeds (a 2xx status) with no payload (204)
    or with a payload whose [count] is missing or [null], both count
    operations report a count of 0, with the same text as for a payload
    [{"count": 0}]. *)
Theorem count_missing_reported_as_zero (e : env) (params : list (string * jsval))
  (st : Z) (retryAfter : option string) (b : body) :
  response_ok st = true ->
  (st = 204 \/ exists v, b = BodyJson v /\ (oget v "count" = JUndef \/ oget v "count" = JNull)) ->
  let statusText :=
    if truthy (assoc_get "status" params)
    then " with status " ++ dq ++ to_str (assoc_get "status" params) ++ dq
    else "" in
  snd (run (fun _ => Responded st retryAfter b) (Shipments.countShipments e params)) =
    Done ("Total shipments" ++ statusText ++ ": 0") /\
  snd (run (fun _ => Responded 200 None (BodyJson (JObj [("count", JNum 0)])))
           (Shipments.countShipments e params)) =
    Done ("Total shipments" ++ statusText ++ ": 0") /\
  snd (run (fun _ => Responded st retryAfter b) (Batches.countBatches e params)) =
    Done ("Total batches" ++ statusText ++ ": 0") /\
  snd (run (fun _ => Responded 200 None (BodyJson (JObj [("count", JNum 0)])))
           (Batches.countBatches e params)) =
    Done ("Total batches" ++ statusText ++ ": 0").
Proof.
  intros Hok Hcase statusText.
  assert (H429 : (st =? 429) = false).
  { unfold response_ok in Hok. apply andb_true_iff in Hok as [H1 H2].
    apply Z.leb_le in H1. apply Z.leb_le in H2. apply Z.eqb_neq. lia. }
  assert (Hresp : forall c endpoint,
             snd (run (fun _ => Responded st retryAfter b) (client_get c endpoint)) =
             Done {| data := match b with BodyJson v => if st =? 204 then JUndef else v
                                        | BodyInvalid _ => JUndef end;
                     error := JUndef; status := st |}).
  { intros c endpoint. destruct Hcase as [-> | [v [-> _]]]; [destruct b; reflexivity |].
    unfold client_get, request_. simpl. rewrite H429.
    destruct (st =? 204) eqn:E204; simpl; [apply Z.eqb_eq in E204; subst st; reflexivity |].
    rewrite Hok. reflexivity. }
  assert (Hcount :
             oget match b with BodyJson v => if st =? 204 then JUndef else v
                             | BodyInvalid _ => JUndef end "count" = JUndef \/
             oget match b with BodyJson v => if st =? 204 then JUndef else v
                             | BodyInvalid _ => JUndef end "count" = JNull).
  { destruct Hcase as [-> | [v [-> Hv]]].
    - destruct b; left; reflexivity.
    - destruct (st =? 204); [left; reflexivity | exact Hv]. }
  unfold Shipments.countShipments, Batches.countBatches.
  rewrite !run_bind.
  repeat split.
  - pose proof (Hresp (client e) (with_query "/shipments/count" (set_if params "status"))) as R.
    destruct (run _ (client_get (client e) _)) as [rs o]. simpl in R. subst o.
    destruct Hcount as [Hc | Hc]; simpl; rewrite Hc; reflexivity.
  - pose proof (Hresp (client e) (with_query "/batches/count" (set_if params "status"))) as R.
    destruct (run _ (client_get (client e) _)) as [rs o]. simpl in R. subst o.
    destruct Hcount as [Hc | Hc]; simpl; rewrite Hc; reflexivity.
Qed.

Lemma count_missing_reported_as_zero_witness :
  snd (run (fun _ => Responded 200 None (BodyJson (JObj [("total", JNum 3)])))
           (Shipments.countShipments configured_env [("status", JStr "ready")])) =
    Done ("Total shipments with status " ++ dq ++ "ready" ++ dq ++ ": 0") /\
  snd (run (fun _ => Responded 200 None (BodyJson (JObj [("count", JNum 0)])))
           (Shipments.countShipments configured_env [("status", JStr "ready")])) =
    Done ("Total shipments with status " ++ dq ++ "ready" ++ dq ++ ": 0") /\
  snd (run (fun _ => Responded 200 None (BodyJson (JObj [("total", JNum 3)])))
           (Batches.countBatches configured_env [("status", JStr "ready")])) =
    Done ("Total batches with status " ++ dq ++ "ready" ++ dq ++ ": 0") /\
  snd (run (fun _ => Responded 200 None (BodyJson (JObj [("count", JNum 0)])))
           (Batches.countBatches configured_env [("status", JStr "ready")])) =
    Done ("Total batches with status " ++ dq ++ "ready" ++ dq ++ ": 0").
Proof.
  assert (Hok : response_ok 200 = true) by reflexivity.
  assert (Hcase : 200 = 204 \/ exists v, BodyJson (JObj [("total", JNum 3)]) = BodyJson v
                  /\ (oget v "count" = JUndef \/ oget v "count" = JNull)).
  { right. eexists. split; [reflexivity | left; reflexivity]. }
  exact (count_missing_reported_as_zero configured_env [("status", JStr "ready")] 200 None
           (BodyJson (JObj [("total", JNum 3)])) Hok Hcase).
Defined.

(** ** Request bounds of the handlers *)

Lemma sends_run {A} (P : request -> Prop) (n : nat) (m : io A)
  (remote : request -> fetch_result) :
  sends P n m -> (length (fst (run remote m)) <= n)%nat /\ Forall P (fst (run remote m)).
Proof.
  intros H. induction H as [n a | n msg | n r k Hr Hk IH]; simpl.
  - split; [lia | constructor].
  - split; [lia | constructor].
  - destruct (IH (remote r)) as [Hl Hf].
    destruct (run remote (k (remote r))) as [rs o]. simpl in *.
    split; [lia | constructor; assumption].
Qed.

Lemma sends_forall {A} (P : request -> Prop) (n : nat) (m : io A)
  (remote : request -> fetch_result) :
  sends P n m -> Forall P (fst (run remote m)).
Proof. intros H. exact (proj2 (sends_run P n m remote H)). Qed.

Lemma sends_length {A} (P : request -> Prop) (n : nat) (m : io A)
  (remote : request -> fetch_result) :
  sends P n m -> (length (fst (run remote m)) <= n)%nat.
Proof. intros H. exact (proj1 (sends_run P n m remote H)). Qed.

Lemma sends_weaken {A} (P Q : request -> Prop) (n n' : nat) (m : io A) :
  (forall r, P r -> Q r) -> (n <= n')%nat -> sends P n m -> sends Q n' m.
Proof.
  intros HPQ Hle H. revert n' Hle.
  induction H as [n a | n msg | n r k Hr Hk IH]; intros n' Hle.
  - constructor.
  - constructor.
  - destruct n' as [| n']; [lia |]. constructor; [exact (HPQ r Hr) |].
    intros x. apply IH. lia.
Qed.

Lemma sends_bind {A B} (P : request -> Prop) (n n' : nat) (m : io A) (f : A -> io B) :
  sends P n m -> (forall a, sends P n' (f a)) -> sends P (n + n') (bind m f).
Proof.
  intros H Hf. induction H as [n a | n msg | n r k Hr Hk IH]; simpl.
  - apply (sends_weaken P P n' (n + n')); [auto | lia | apply Hf].
  - constructor.
  - constructor; [exact Hr | exact IH].
Qed.

Lemma sends_catch {A} (P : request -> Prop) (n : nat) (m : io A) (h : string -> io A) :
  sends P n m -> (forall msg, sends P 0 (h msg)) -> sends P n (catch_io m h).
Proof.
  intros H Hh. induction H as [n a | n msg | n r k Hr Hk IH]; simpl.
  - constructor.
  - apply (sends_weaken P P 0 n); [auto | lia | apply Hh].
  - constructor; [exact Hr | exact IH].
Qed.

Lemma sends_bind0 {A B} (P : request -> Prop) (m : io A) (f : A -> io B) :
  sends P 0 m -> (forall a, sends P 0 (f a)) -> sends P 0 (bind m f).
Proof. exact (sends_bind P 0 0 m f). Qed.

Lemma sends_bind1 {A B} (P : request -> Prop) (m : io A) (f : A -> io B) :
  sends P 1 m -> (forall a, sends P 0 (f a)) -> sends P 1 (bind m f).
Proof. exact (sends_bind P 1 0 m f). Qed.

Lemma sends_io_map {A B} (P : request -> Prop) (f : A -> io B) (l : list A) :
  (forall x, sends P 0 (f x)) -> sends P 0 (io_map f l).
Proof.
  intros Hf. induction l as [| x l IH]; simpl.
  - constructor.
  - apply sends_bind0; [apply Hf | intros y].
    apply sends_bind0; [exact IH | intros ys; constructor].
Qed.

Lemma sends_js_map {B} (P : request -> Prop) (expr : string) (v : jsval)
  (f : jsval -> io B) :
  (forall x, sends P 0 (f x)) -> sends P 0 (js_map expr v f).
Proof. intros Hf. destruct v; simpl; try constructor. apply sends_io_map, Hf. Qed.

Lemma sends_get (P : request -> Prop) (v : jsval) (k : string) : sends P 0 (get v k).
Proof. destruct v; constructor. Qed.

Lemma sends_js_iter (P : request -> Prop) (expr : string) (v : jsval) :
  sends P 0 (js_iter expr v).
Proof. destruct v; constructor. Qed.

Lemma sends_js_upper (P : request -> Prop) (expr : string) (v : jsval) :
  sends P 0 (js_upper expr v).
Proof. destruct v; constructor. Qed.

Lemma sends_each_nonempty (P : request -> Prop) (expr : string) (v : jsval)
  (hdr : list string) (g : jsval -> io (list string)) :
  (forall x, sends P 0 (g x)) -> sends P 0 (Shipments.each_nonempty expr v hdr g).
Proof.
  intros Hg. unfold Shipments.each_nonempty.
  destruct (truthy v && gt0 (oget v "length")); [| constructor].
  apply sends_bind0; [apply sends_js_iter | intros xs].
  apply sends_bind0; [apply sends_io_map, Hg | intros ls; constructor].
Qed.

(** The one request of an authenticated call. *)
Lemma sends_request (c : ChitChatsClient) (method endpoint : string)
  (reqbody : option jsval) :
  sends (fun r => rq_method r = method /\ rq_url r = baseUrl c ++ endpoint
                  /\ rq_headers r = request_headers c reqbody /\ rq_body r = reqbody)
    1 (request_ c method endpoint reqbody).
Proof.
  unfold request_. simpl. constructor; [repeat split |].
  intros x. destruct x as [st ra [v | msg] | msg]; simpl; try constructor.
  - destruct (st =? 429); [constructor |]. destruct (st =? 204); [constructor |].
    destruct (negb (response_ok st)); simpl; [| constructor].
    destruct v; simpl; try constructor;
      destruct (truthy (assoc_get "error" fields)); simpl; constructor.
  - destruct (st =? 429); [constructor |]. destruct (st =? 204); constructor.
Qed.

Lemma sends_public_tracking (e : env) (shipmentId : string) :
  sends (fun r => rq_method r = "GET"
                  /\ rq_url r = BASE_URL e ++ "/tracking/" ++ shipmentId ++ ".json"
                  /\ rq_headers r = [] /\ rq_body r = None)
    1 (getPublicTracking e shipmentId).
Proof.
  unfold getPublicTracking. simpl. constructor; [repeat split |].
  intros x. destruct x as [st ra [v | msg] | msg]; simpl; constructor.
Qed.

Lemma sends_method (c : ChitChatsClient) (method endpoint : string)
  (reqbody : option jsval) :
  sends (fun r => rq_method r = method) 1 (request_ c method endpoint reqbody).
Proof.
  eapply sends_weaken; [| apply le_n | apply sends_request].
  intros r H. apply H.
Qed.

Ltac sends0 :=
  repeat (intros; cbv zeta; lazymatch goal with
   | |- sends _ 0 (Ret _) => apply sends_ret
   | |- sends _ 0 (Throw _) => apply sends_throw
   | |- sends _ 0 (ret_lines _) => apply sends_ret
   | |- sends _ 0 (bind _ _) => apply sends_bind0
   | |- sends _ 0 (io_map _ _) => apply sends_io_map
   | |- sends _ 0 (get _ _) => apply sends_get
   | |- sends _ 0 (js_map _ _ _) => apply sends_js_map
   | |- sends _ 0 (js_iter _ _) => apply sends_js_iter
   | |- sends _ 0 (js_upper _ _) => apply sends_js_upper
   | |- sends _ 0 (Shipments.each_nonempty _ _ _ _) => apply sends_each_nonempty
   | |- sends _ 0 (if ?b then _ else _) => destruct b
   | |- sends _ 0 (match ?x with _ => _ end) => destruct x
   | |- sends _ 0 _ =>
       progress unfold Shipments.summary, Shipments.detail_line_item,
         Shipments.detail_rate, Shipments.rates_rate, Shipments.items_item,
         Batches.summary, Returns.summary, Tracking.event_line
   end).

Ltac handler_sends :=
  intros;
  lazymatch goal with
  | |- sends _ 1 (bind (getPublicTracking _ _) _) =>
      apply sends_bind1;
      [eapply sends_weaken; [| apply le_n | apply sends_public_tracking];
       intros r H; apply H
      | sends0]
  | |- sends _ 1 (bind _ _) => apply sends_bind1; [apply sends_method | sends0]
  end.

Lemma listShipments_sends e params :
  sends (fun r => rq_method r = "GET") 1 (Shipments.listShipments e params).
Proof. unfold Shipments.listShipments, client_get. handler_sends. Qed.
Lemma getShipment_sends e params :
  sends (fun r => rq_method r = "GET") 1 (Shipments.getShipment e params).
Proof. unfold Shipments.getShipment, client_get. handler_sends. Qed.
Lemma getShipmentRates_sends e params :
  sends (fun r => rq_method r = "GET") 1 (Shipments.getShipmentRates e params).
Proof. unfold Shipments.getShipmentRates, client_get. handler_sends. Qed.
Lemma getShipmentLabels_sends e params :
  sends (fun r => rq_method r = "GET") 1 (Shipments.getShipmentLabels e params).
Proof. unfold Shipments.getShipmentLabels, client_get. handler_sends. Qed.
Lemma getShipmentLineItems_sends e params :
  sends (fun r => rq_method r = "GET") 1 (Shipments.getShipmentLineItems e params).
Proof. unfold Shipments.getShipmentLineItems, client_get. handler_sends. Qed.
Lemma createShipment_sends e params :
  sends (fun r => rq_method r = "POST") 1 (Shipments.createShipment e params).
Proof. unfold Shipments.createShipment, client_post. handler_sends. Qed.
Lemma deleteShipment_sends e params :
  sends (fun r => rq_method r = "DELETE") 1 (Shipments.deleteShipment e params).
Proof. unfold Shipments.deleteShipment, client_delete. handler_sends. Qed.
Lemma buyPostage_sends e params :
  sends (fun r => rq_method r = "PATCH") 1 (Shipments.buyPostage e params).
Proof. unfold Shipments.buyPostage, client_patch. handler_sends. Qed.
Lemma refundShipment_sends e params :
  sends (fun r => rq_method r = "PATCH") 1 (Shipments.refundShipment e params).
Proof. unfold Shipments.refundShipment, client_patch. handler_sends. Qed.
Lemma refreshRates_sends e params :
  sends (fun r => rq_method r = "PATCH") 1 (Shipments.refreshRates e params).
Proof. unfold Shipments.refreshRates, client_patch. handler_sends. Qed.
Lemma countShipments_sends e params :
  sends (fun r => rq_method r = "GET") 1 (Shipments.countShipments e params).
Proof. unfold Shipments.countShipments, client_get. handler_sends. Qed.
Lemma listBatches_sends e params :
  sends (fun r => rq_method r = "GET") 1 (Batches.listBatches e params).
Proof. unfold Batches.listBatches, client_get. handler_sends. Qed.
Lemma createBatch_sends e params :
  sends (fun r => rq_method r = "POST") 1 (Batches.createBatch e params).
Proof. unfold Batches.createBatch, client_post. handler_sends. Qed.
Lemma getBatch_sends e params :
  sends (fun r => rq_method r = "GET") 1 (Batches.getBatch e params).
Proof. unfold Batches.getBatch, client_get. handler_sends. Qed.
Lemma deleteBatch_sends e params :
  sends (fun r => rq_method r = "DELETE") 1 (Batches.deleteBatch e params).
Proof. unfold Batches.deleteBatch, client_delete. handler_sends. Qed.
Lemma addToBatch_sends e params :
  sends (fun r => rq_method r = "PATCH") 1 (Batches.addToBatch e params).
Proof. unfold Batches.addToBatch, client_patch. handler_sends. Qed.
Lemma removeFromBatch_sends e params :
  sends (fun r => rq_method r = "PATCH") 1 (Batches.removeFromBatch e params).
Proof. unfold Batches.removeFromBatch, client_patch. handler_sends. Qed.
Lemma countBatches_sends e params :
  sends (fun r => rq_method r = "GET") 1 (Batches.countBatches e params).
Proof. unfold Batches.countBatches, client_get. handler_sends. Qed.
Lemma listReturns_sends e params :
  sends (fun r => rq_method r = "GET") 1 (Returns.listReturns e params).
Proof. unfold Returns.listReturns, client_get. handler_sends. Qed.
Lemma trackShipment_sends e params :
  sends (fun r => rq_method r = "GET") 1 (Tracking.trackShipment e params).
Proof. unfold Tracking.trackShipment. handler_sends. Qed.

Lemma lookup_case_some (name : string) (l : list tool_case) (c : tool_case) :
  lookup_case name l = Some c -> In c l.
Proof.
  induction l as [| c' l IH]; simpl; [discriminate |].
  destruct (String.eqb name (tc_name c')); [intros H; injection H as ->; left; reflexivity |].
  intros H. right. exact (IH H).
Qed.

Lemma call_tool_sends (e : env) (name : string) (args : jsval) (P : request -> Prop)
  (n : nat) (c : tool_case) :
  lookup_case name cases = Some c ->
  (forall params, sends P n (tc_handler c e params)) ->
  sends P n (call_tool e name args).
Proof.
  intros Hl Hh. unfold call_tool. rewrite Hl.
  apply sends_catch; [| intros; constructor].
  rewrite <- (Nat.add_0_r n). apply sends_bind; [| intros; constructor].
  unfold case_body. apply (sends_bind P 0 n).
  - unfold zod_parse. destruct (zparse _ _); constructor.
  - exact Hh.
Qed.

Lemma call_tool_unknown_sends (e : env) (name : string) (args : jsval)
  (P : request -> Prop) :
  lookup_case name cases = None -> sends P 0 (call_tool e name args).
Proof. intros Hl. unfold call_tool. rewrite Hl. constructor. Qed.

Ltac handler_lemma :=
  first [ apply listShipments_sends | apply getShipment_sends
        | apply getShipmentRates_sends | apply getShipmentLabels_sends
        | apply getShipmentLineItems_sends | apply createShipment_sends
        | apply deleteShipment_sends | apply buyPostage_sends
        | apply refundShipment_sends | apply refreshRates_sends
        | apply countShipments_sends | apply listBatches_sends
        | apply createBatch_sends | apply getBatch_sends
        | apply deleteBatch_sends | apply addToBatch_sends
        | apply removeFromBatch_sends | apply countBatches_sends
        | apply listReturns_sends | apply trackShipment_sends ].

(** The request method of every handler, weakened to [Q]. *)
Ltac case_sends :=
  eapply call_tool_sends; [reflexivity |]; intros params; cbn [tc_handler];
  eapply sends_weaken; [| apply le_n | handler_lemma];
  intros r Hm; rewrite Hm.

(** The advertised tool list and the dispatcher agree: the same tools in the
    same order, and each tool's advertised properties, types, enumerations
    and required fields are those of the zod schema its arguments are
    validated with. *)
Theorem advertised_tools_match_validation : Forall2 tool_agrees list_tools cases.
Proof. repeat constructor. Qed.

(** The annotations of the advertised tools hold for the requests they
    send: a tool marked [readOnlyHint] sends only GET requests, and a tool
    sends a DELETE request exactly when it is marked [destructiveHint]. *)
Theorem tool_annotations_respected (t : tool) (e : env) (args : jsval)
  (remote : request -> fetch_result) :
  In t list_tools ->
  Forall (fun r => (td_readOnlyHint t = true -> rq_method r = "GET")
                   /\ (rq_method r = "DELETE" <-> td_destructiveHint t = true))
    (fst (run remote (call_tool e (td_name t) args))).
Proof.
  intros Hin. apply (sends_forall _ 1).
  unfold list_tools, tools in Hin.
  repeat (destruct Hin as [<- | Hin];
          [case_sends; cbn [td_readOnlyHint td_destructiveHint];
           split; [| split]; intros H; first [reflexivity | discriminate H] |]).
  destruct Hin.
Qed.

(** Every call of the call-tool handler, whatever the tool name, arguments
    and remote answers, sends at most one request: no retry, no follow-up
    request, no pagination loop. *)
Theorem call_tool_at_most_one_request (e : env) (name : string) (args : jsval)
  (remote : request -> fetch_result) :
  (length (fst (run remote (call_tool e name args))) <= 1)%nat.
Proof.
  apply (sends_length (fun _ => True)).
  destruct (lookup_case name cases) as [c |] eqn:Hl.
  - pose proof (lookup_case_some _ _ _ Hl) as Hin.
    eapply call_tool_sends; [exact Hl |]. intros params.
    unfold cases in Hin.
    repeat (destruct Hin as [<- | Hin];
            [cbn [tc_handler]; eapply sends_weaken;
             [| apply le_n | handler_lemma]; intros; exact I |]).
    destruct Hin.
  - apply (sends_weaken (fun _ => True) _ 0 1); [auto | lia | apply call_tool_unknown_sends, Hl].
Qed.

Lemma tool_annotations_respected_witness :
  In (nth 6 list_tools (mk_tool "" [] [] false false)) list_tools /\
  Forall (fun r =>
            (td_readOnlyHint (nth 6 list_tools (mk_tool "" [] [] false false)) = true ->
             rq_method r = "GET") /\
            (rq_method r = "DELETE" <->
             td_destructiveHint (nth 6 list_tools (mk_tool "" [] [] false false)) = true))
    (fst (run (fun _ => Responded 200 None (BodyJson (JObj [])))
              (call_tool configured_env
                 (td_name (nth 6 list_tools (mk_tool "" [] [] false false)))
                 (JObj [("id", JStr "shp1")])))).
Proof.
  assert (Hin : In (nth 6 list_tools (mk_tool "" [] [] false false)) list_tools)
    by (do 6 right; left; reflexivity).
  split; [exact Hin | apply tool_annotations_respected, Hin].
Defined.

(** ** Handlers against a remote that answers with a JSON body *)

(** A call of the transport client answered with a 2xx JSON body [d] goes on
    with the response object [request] builds from it. *)
Lemma request_ok_bind {B} (c : ChitChatsClient) (method endpoint : string)
  (reqbody : option jsval) (k : ApiResponse -> io B)
  (remote : request -> fetch_result) (st : Z) (ra : option string) (d : jsval) :
  (forall r, remote r = Responded st ra (BodyJson d)) ->
  response_ok st = true ->
  snd (run remote (bind (request_ c method endpoint reqbody) k)) =
  snd (run remote (k (if st =? 204 then mk_resp JUndef JUndef 204
                      else mk_resp d JUndef st))).
Proof.
  intros Hr Hok. unfold request_. simpl. rewrite Hr.
  assert (H429 : (st =? 429) = false).
  { unfold response_ok in Hok. apply andb_prop in Hok as [H1 H2].
    apply Z.leb_le in H1. apply Z.leb_le in H2. apply Z.eqb_neq. lia. }
  rewrite H429. destruct (st =? 204) eqn:H204.
  - simpl. destruct (run remote (k _)). reflexivity.
  - rewrite Hok. simpl. destruct (run remote (k _)). reflexivity.
Qed.

(** The three list tools (listShipments, listBatches, listReturns) answer
    with their fixed "nothing found" text when the remote answers 2xx with
    no content (204), with a falsy body, or with an empty array. *)
Theorem list_tools_empty_text (e : env) (params : list (string * jsval))
  (remote : request -> fetch_result) (st : Z) (ra : option string) (d : jsval) :
  (forall r, remote r = Responded st ra (BodyJson d)) ->
  response_ok st = true ->
  (st = 204 \/ truthy d = false \/ d = JArr []) ->
  snd (run remote (Shipments.listShipments e params))
    = Done "No shipments found matching your criteria." /\
  snd (run remote (Batches.listBatches e params)) = Done "No batches found." /\
  snd (run remote (Returns.listReturns e params))
    = Done "No returns found matching your criteria.".
Proof.
  intros Hr Hok Hempty.
  assert (Hdata : js_or (data (if st =? 204 then mk_resp JUndef JUndef 204
                                else mk_resp d JUndef st)) (JArr []) = JArr []).
  { destruct (st =? 204) eqn:H204; [reflexivity |]. simpl.
    destruct Hempty as [-> | [Hf | ->]]; [discriminate | | reflexivity].
    unfold js_or. rewrite Hf. reflexivity. }
  assert (Herr : error (if st =? 204 then mk_resp JUndef JUndef 204
                        else mk_resp d JUndef st) = JUndef)
    by (destruct (st =? 204); reflexivity).
  unfold Shipments.listShipments, Batches.listBatches, Returns.listReturns, client_get.
  repeat split; rewrite (request_ok_bind _ _ _ _ _ _ st ra d Hr Hok);
    rewrite Herr, Hdata; reflexivity.
Qed.

Lemma list_tools_empty_text_witness :
  snd (run (fun _ => Responded 200 None (BodyJson (JArr []))) (Shipments.listShipments configured_env []))
    = Done "No shipments found matching your criteria." /\
  snd (run (fun _ => Responded 200 None (BodyJson (JArr []))) (Batches.listBatches configured_env []))
    = Done "No batches found." /\
  snd (run (fun _ => Responded 200 None (BodyJson (JArr []))) (Returns.listReturns configured_env []))
    = Done "No returns found matching your criteria.".
Proof.
  apply (list_tools_empty_text configured_env [] _ 200 None (JArr []));
    [reflexivity | reflexivity | right; right; reflexivity].
Defined.

(** The validated arguments of a call whose raw arguments validate. *)
Lemma case_body_valid (e : env) (remote : request -> fetch_result) (c : tool_case)
  (args : jsval) (params : list (string * jsval)) :
  zparse (tc_schema c) (parse_args c args) = inr params ->
  run remote (case_body e c args) = run remote (tc_handler c e params).
Proof.
  intros Hp. unfold case_body, zod_parse. rewrite Hp. reflexivity.
Qed.

(** The six tools whose arguments default to [{}] (list_shipments,
    count_shipments, list_batches, create_batch, count_batches,
    list_returns) accept a call without arguments, or with any falsy
    arguments value: their schema has no required field, and the handler
    runs on the empty parameter object. *)
Theorem default_args_run_handler_on_empty (c : tool_case) (e : env) (args : jsval)
  (remote : request -> fetch_result) :
  In c cases -> tc_default_args c = true -> truthy args = false ->
  run remote (call_tool e (tc_name c) args) =
  let '(rs, o) := run remote (tc_handler c e []) in
  (rs, Done (match o with
             | Done t => {| text := t; isError := None |}
             | Raised m => {| text := "Error: " ++ m; isError := Some true |}
             end)).
Proof.
  intros Hin Hdef Hf.
  rewrite (call_tool_case e remote c args (lookup_case_in c Hin)).
  assert (Hp : parse_args c args = JObj []).
  { unfold parse_args, js_or. rewrite Hdef, Hf. reflexivity. }
  assert (Hz : zparse (tc_schema c) (JObj []) = inr []).
  { simpl in Hin.
    repeat (destruct Hin as [<- | Hin]; [first [reflexivity | discriminate Hdef] |]).
    contradiction. }
  rewrite <- Hp in Hz. rewrite (case_body_valid e remote c args [] Hz). reflexivity.
Qed.

Lemma default_args_run_handler_on_empty_witness :
  run (fun _ => Responded 200 None (BodyJson (JObj [("count", JNum 7)])))
    (call_tool configured_env "chitchats_count_shipments" JUndef) =
  let '(rs, o) := run (fun _ => Responded 200 None (BodyJson (JObj [("count", JNum 7)])))
                    (Shipments.countShipments configured_env []) in
  (rs, Done (match o with
             | Done t => {| text := t; isError := None |}
             | Raised m => {| text := "Error: " ++ m; isError := Some true |}
             end)).
Proof.
  exact (default_args_run_handler_on_empty
           (mk_case "chitchats_count_shipments" CountShipmentsSchema true
              Shipments.countShipments)
           configured_env JUndef _
           ltac:(do 10 right; left; reflexivity) eq_refl eq_refl).
Defined.

(** The three list tools fail with the [TypeError] of [.map] when the
    remote answers 2xx with a JSON object (not an array) whose [length]
    is not the number 0: the list is read as [response.data] itself. *)
Theorem list_tools_object_body_fails (e : env) (params : list (string * jsval))
  (remote : request -> fetch_result) (st : Z) (ra : option string)
  (fs : list (string * jsval)) :
  (forall r, remote r = Responded st ra (BodyJson (JObj fs))) ->
  response_ok st = true -> st <> 204 ->
  is_zero (assoc_get "length" fs) = false ->
  snd (run remote (Shipments.listShipments e params))
    = Raised "shipments.map is not a function" /\
  snd (run remote (Batches.listBatches e params))
    = Raised "batches.map is not a function" /\
  snd (run remote (Returns.listReturns e params))
    = Raised "returns.map is not a function".
Proof.
  intros Hr Hok H204 Hlen.
  assert (Hst : (st =? 204) = false) by (apply Z.eqb_neq; exact H204).
  unfold Shipments.listShipments, Batches.listBatches, Returns.listReturns, client_get.
  repeat split; rewrite (request_ok_bind _ _ _ _ _ _ st ra (JObj fs) Hr Hok);
    rewrite Hst; cbn [error data truthy js_or get bind]; rewrite Hlen; reflexivity.
Qed.

Lemma list_tools_object_body_fails_witness :
  snd (run (fun _ => Responded 200 None (BodyJson (JObj [("shipments", JArr [])])))
         (Shipments.listShipments configured_env []))
    = Raised "shipments.map is not a function" /\
  snd (run (fun _ => Responded 200 None (BodyJson (JObj [("shipments", JArr [])])))
         (Batches.listBatches configured_env []))
    = Raised "batches.map is not a function" /\
  snd (run (fun _ => Responded 200 None (BodyJson (JObj [("shipments", JArr [])])))
         (Returns.listReturns configured_env []))
    = Raised "returns.map is not a function".
Proof.
  apply (list_tools_object_body_fails configured_env [] _ 200 None
           [("shipments", JArr [])]); [reflexivity | reflexivity | discriminate | reflexivity].
Defined.

(** The four shipment getters (getShipment, getShipmentRates,
    getShipmentLabels, getShipmentLineItems) answer "Shipment <id> not
    found." when the remote answers 2xx without a truthy [shipment]
    field, including an empty 204 answer. *)
Theorem shipment_getters_not_found (e : env) (params : list (string * jsval))
  (remote : request -> fetch_result) (st : Z) (ra : option string) (d : jsval) :
  (forall r, remote r = Responded st ra (BodyJson d)) ->
  response_ok st = true ->
  (st = 204 \/ truthy (oget d "shipment") = false) ->
  let msg := "Shipment " ++ to_str (assoc_get "id" params) ++ " not found." in
  snd (run remote (Shipments.getShipment e params)) = Done msg /\
  snd (run remote (Shipments.getShipmentRates e params)) = Done msg /\
  snd (run remote (Shipments.getShipmentLabels e params)) = Done msg /\
  snd (run remote (Shipments.getShipmentLineItems e params)) = Done msg.
Proof.
  intros Hr Hok Hnone msg.
  assert (Hs : truthy (oget (data (if st =? 204 then mk_resp JUndef JUndef 204
                                   else mk_resp d JUndef st)) "shipment") = false).
  { destruct (st =? 204) eqn:H204; [reflexivity |].
    destruct Hnone as [-> | Hf]; [discriminate | exact Hf]. }
  assert (Herr : error (if st =? 204 then mk_resp JUndef JUndef 204
                        else mk_resp d JUndef st) = JUndef)
    by (destruct (st =? 204); reflexivity).
  unfold Shipments.getShipment, Shipments.getShipmentRates,
    Shipments.getShipmentLabels, Shipments.getShipmentLineItems, client_get.
  repeat split; rewrite (request_ok_bind _ _ _ _ _ _ st ra d Hr Hok);
    rewrite Herr; cbn [truthy negb]; rewrite Hs; reflexivity.
Qed.

Lemma shipment_getters_not_found_witness :
  let remote := fun _ : request => Responded 200 None (BodyJson (JObj [])) in
  let params := [("id", JStr "shp9")] in
  let msg := "Shipment " ++ to_str (assoc_get "id" params) ++ " not found." in
  snd (run remote (Shipments.getShipment configured_env params)) = Done msg /\
  snd (run remote (Shipments.getShipmentRates configured_env params)) = Done msg /\
  snd (run remote (Shipments.getShipmentLabels configured_env params)) = Done msg /\
  snd (run remote (Shipments.getShipmentLineItems configured_env params)) = Done msg.
Proof.
  exact (shipment_getters_not_found configured_env [("id", JStr "shp9")]
           (fun _ => Responded 200 None (BodyJson (JObj []))) 200 None (JObj [])
           (fun _ => eq_refl) eq_refl (or_intror eq_refl)).
Defined.

(** getBatch answers "Batch <id> not found." when the remote answers 2xx
    without a truthy [batch] field, including an empty 204 answer. *)
Theorem get_batch_not_found (e : env) (params : list (string * jsval))
  (remote : request -> fetch_result) (st : Z) (ra : option string) (d : jsval) :
  (forall r, remote r = Responded st ra (BodyJson d)) ->
  response_ok st = true ->
  (st = 204 \/ truthy (oget d "batch") = false) ->
  snd (run remote (Batches.getBatch e params))
    = Done ("Batch " ++ to_str (assoc_get "id" params) ++ " not found.").
Proof.
  intros Hr Hok Hnone. unfold Batches.getBatch, client_get.
  rewrite (request_ok_bind _ _ _ _ _ _ st ra d Hr Hok).
  destruct (st =? 204) eqn:H204; [reflexivity |].
  destruct Hnone as [-> | Hf]; [discriminate |].
  cbn [error data truthy negb]. rewrite Hf. reflexivity.
Qed.

Lemma get_batch_not_found_witness :
  snd (run (fun _ => Responded 204 None (BodyJson JUndef))
         (Batches.getBatch configured_env [("id", JStr "b7")]))
    = Done ("Batch " ++ to_str (assoc_get "id" [("id", JStr "b7")]) ++ " not found.").
Proof.
  exact (get_batch_not_found configured_env [("id", JStr "b7")] _ 204 None JUndef
           (fun _ => eq_refl) eq_refl (or_introl eq_refl)).
Defined.



(** A handler that calls the transport client once and then only computes
    sends exactly the request of that call. *)
Lemma request_then_pure {B} (c : ChitChatsClient) (method endpoint : string)
  (reqbody : option jsval) (k : ApiResponse -> io B) (remote : request -> fetch_result) :
  (forall x, sends (fun _ => True) 0 (k x)) ->
  fst (run remote (bind (request_ c method endpoint reqbody) k)) =
  [mk_request (baseUrl c ++ endpoint) method (request_headers c reqbody) reqbody].
Proof.
  intros Hk. rewrite run_bind.
  pose proof (request_sends_one c remote method endpoint reqbody) as H1.
  destruct (run remote (request_ c method endpoint reqbody)) as [rs o].
  simpl in H1. subst rs. destruct o as [a | m]; [| reflexivity].
  pose proof (sends_length _ 0 _ remote (Hk a)) as H0.
  destruct (run remote (k a)) as [rs2 o2]. simpl in H0 |- *.
  destruct rs2; [reflexivity | simpl in H0; lia].
Qed.

(** refreshRates sends one PATCH request; it carries no body and no
    Content-Type header exactly when none of size_x, size_y, size_z and
    weight is truthy in the parameters. *)
Theorem refresh_rates_body_iff_dimension (e : env) (params : list (string * jsval))
  (remote : request -> fetch_result) :
  exists r,
    fst (run remote (Shipments.refreshRates e params)) = [r] /\
    rq_method r = "PATCH" /\
    (rq_body r = None <->
     Forall (fun k => truthy (assoc_get k params) = false)
       ["size_x"; "size_y"; "size_z"; "weight"]) /\
    (In ("Content-Type", "application/json") (rq_headers r) <-> rq_body r <> None).
Proof.
  unfold Shipments.refreshRates, client_patch. cbv zeta.
  rewrite request_then_pure by sends0.
  eexists. split; [reflexivity |]. split; [reflexivity |]. cbn [rq_body rq_headers].
  unfold fwd. cbn [map List.concat].
  destruct (truthy (assoc_get "size_x" params)) eqn:Hx,
           (truthy (assoc_get "size_y" params)) eqn:Hy,
           (truthy (assoc_get "size_z" params)) eqn:Hz,
           (truthy (assoc_get "weight" params)) eqn:Hw; simpl;
  (split; [split; [intros H; try discriminate H;
                   repeat constructor; assumption
                  | intros H; inversion H as [| ? ? H1 H2]; subst;
                    inversion H2 as [| ? ? H3 H4]; subst;
                    inversion H4 as [| ? ? H5 H6]; subst;
                    inversion H6 as [| ? ? H7 H8]; subst; congruence]
          | split; [intros H; intuition discriminate
                   | intros H; try (right; right; left; reflexivity);
                     exfalso; apply H; reflexivity]]).
Qed.

(** createBatch always sends one POST with a JSON object body and the
    Content-Type header: the body is the empty object when the description
    is falsy (absent or the empty string), and [{description}] otherwise. *)
Theorem create_batch_always_json_body (e : env) (params : list (string * jsval))
  (remote : request -> fetch_result) :
  exists r,
    fst (run remote (Batches.createBatch e params)) = [r] /\
    rq_method r = "POST" /\
    In ("Content-Type", "application/json") (rq_headers r) /\
    rq_body r = Some (JObj (if truthy (assoc_get "description" params)
                            then [("description", assoc_get "description" params)]
                            else [])).
Proof.
  unfold Batches.createBatch, client_post.
  rewrite request_then_pure by sends0.
  eexists. split; [reflexivity |]. split; [reflexivity |].
  split; [right; right; left; reflexivity | reflexivity].
Qed.

(** addToBatch and removeFromBatch report the number of shipment IDs they
    were given, whatever a successful (2xx) answer of the remote contains. *)
Theorem batch_membership_reports_requested_count (e : env)
  (params : list (string * jsval)) (ids : list jsval)
  (remote : request -> fetch_result) (st : Z) (ra : option string) (d : jsval) :
  (forall r, remote r = Responded st ra (BodyJson d)) ->
  response_ok st = true ->
  assoc_get "shipment_ids" params = JArr ids ->
  snd (run remote (Batches.addToBatch e params)) =
    Done ("Successfully added " ++ z_to_string (Z.of_nat (List.length ids))
          ++ " shipment(s) to batch " ++ to_str (assoc_get "batch_id" params) ++ ".") /\
  snd (run remote (Batches.removeFromBatch e params)) =
    Done ("Successfully removed " ++ z_to_string (Z.of_nat (List.length ids))
          ++ " shipment(s) from their batches.").
Proof.
  intros Hr Hok Hids.
  assert (Herr : error (if st =? 204 then mk_resp JUndef JUndef 204
                        else mk_resp d JUndef st) = JUndef)
    by (destruct (st =? 204); reflexivity).
  unfold Batches.addToBatch, Batches.removeFromBatch, client_patch.
  split; rewrite (request_ok_bind _ _ _ _ _ _ st ra d Hr Hok), Herr, Hids;
    reflexivity.
Qed.

Lemma batch_membership_reports_requested_count_witness :
  let params := [("batch_id", JStr "b1"); ("shipment_ids", JArr [JStr "s1"; JStr "s2"])] in
  let remote := fun _ : request => Responded 200 None (BodyJson (JObj [("added", JNum 0)])) in
  snd (run remote (Batches.addToBatch configured_env params)) =
    Done ("Successfully added " ++ z_to_string (Z.of_nat (List.length [JStr "s1"; JStr "s2"]))
          ++ " shipment(s) to batch " ++ to_str (assoc_get "batch_id" params) ++ ".") /\
  snd (run remote (Batches.removeFromBatch configured_env params)) =
    Done ("Successfully removed " ++ z_to_string (Z.of_nat (List.length [JStr "s1"; JStr "s2"]))
          ++ " shipment(s) from their batches.").
Proof.
  exact (batch_membership_reports_requested_count configured_env
           [("batch_id", JStr "b1"); ("shipment_ids", JArr [JStr "s1"; JStr "s2"])]
           [JStr "s1"; JStr "s2"] _ 200 None (JObj [("added", JNum 0)])
           (fun _ => eq_refl) eq_refl eq_refl).
Defined.

Lemma assoc_get_strip_declared (s : zschema) (fs : list (string * jsval)) (f : zfield) :
  In f s -> assoc_get (zf_name f) (strip_output s fs) = assoc_get (zf_name f) fs.
Proof.
  intros Hin. rewrite assoc_get_strip_output.
  replace (existsb (String.eqb (zf_name f)) (map zf_name s)) with true; [reflexivity |].
  symmetry. apply existsb_exists. exists (zf_name f). split.
  - apply in_map, Hin.
  - apply String.eqb_refl.
Qed.

Lemma strip_output_ext (s : zschema) (fs1 fs2 : list (string * jsval)) :
  (forall f, In f s -> assoc_get (zf_name f) fs1 = assoc_get (zf_name f) fs2) ->
  strip_output s fs1 = strip_output s fs2.
Proof.
  intros H. unfold strip_output. rewrite !flat_map_concat_map. f_equal.
  apply map_ext_in. intros f Hf. rewrite (H f Hf). reflexivity.
Qed.

(** Validation is idempotent: the output object of a successful
    [safeParse] passes the same schema again and comes back unchanged. *)
Theorem zparse_idempotent (s : zschema) (input : jsval) (out : list (string * jsval)) :
  zparse s input = inr out -> zparse s (JObj out) = inr out.
Proof.
  intros H. destruct input as [| | | | | | fs]; try discriminate H.
  simpl in H |- *.
  assert (Hck : flat_map (check_field (strip_output s fs)) s = flat_map (check_field fs) s).
  { rewrite !flat_map_concat_map. f_equal. apply map_ext_in. intros f Hf.
    unfold check_field. rewrite (assoc_get_strip_declared s fs f Hf). reflexivity. }
  assert (Hst : strip_output s (strip_output s fs) = strip_output s fs).
  { apply strip_output_ext. intros f Hf. apply assoc_get_strip_declared, Hf. }
  destruct (flat_map (check_field fs) s) eqn:E; [| discriminate H].
  injection H as <-. rewrite Hck, Hst. reflexivity.
Qed.

Lemma zparse_idempotent_witness :
  zparse CreateShipmentSchema (JObj sample_shipment_args)
    = inr (strip_output CreateShipmentSchema sample_shipment_args) /\
  zparse CreateShipmentSchema (JObj (strip_output CreateShipmentSchema sample_shipment_args))
    = inr (strip_output CreateShipmentSchema sample_shipment_args).
Proof.
  assert (H : zparse CreateShipmentSchema (JObj sample_shipment_args)
              = inr (strip_output CreateShipmentSchema sample_shipment_args))
    by (vm_compute; reflexivity).
  split; [exact H | exact (zparse_idempotent _ _ _ H)].
Defined.

Lemma same_value_zero_sym (a b : jsval) : same_value_zero a b = same_value_zero b a.
Proof.
  destruct a, b; simpl; try reflexivity.
  - destruct b, b0; reflexivity.
  - apply Z.eqb_sym.
  - apply String.eqb_sym.
Qed.

Lemma set_dedupe_distinct (seen l : list jsval) :
  ForallOrdPairs (fun a b => same_value_zero a b = false) (set_dedupe seen l) /\
  Forall (fun y => existsb (same_value_zero y) seen = false) (set_dedupe seen l).
Proof.
  revert seen. induction l as [| x l IH]; intros seen; simpl.
  - split; constructor.
  - destruct (existsb (same_value_zero x) seen) eqn:Ex; [apply IH |].
    destruct (IH (x :: seen)) as [Hp Hf]. split.
    + constructor; [| exact Hp].
      eapply Forall_impl; [| exact Hf]. intros y Hy. simpl in Hy.
      apply orb_false_iff in Hy as [Hy _]. rewrite same_value_zero_sym. exact Hy.
    + constructor; [exact Ex |].
      eapply Forall_impl; [| exact Hf]. intros y Hy. simpl in Hy.
      apply orb_false_iff in Hy as [_ Hy]. exact Hy.
Qed.

Lemma set_dedupe_incl (seen l : list jsval) (y : jsval) :
  In y (set_dedupe seen l) -> In y l.
Proof.
  revert seen. induction l as [| x l IH]; intros seen; simpl; [tauto |].
  destruct (existsb (same_value_zero x) seen).
  - intros H. right. exact (IH seen H).
  - intros [H | H]; [left; exact H | right; exact (IH (x :: seen) H)].
Qed.

Lemma set_dedupe_covers (seen l : list jsval) (x : jsval) :
  In x l ->
  (exists y, In y seen /\ same_value_zero x y = true) \/
  (exists y, In y (set_dedupe seen l) /\ (y = x \/ same_value_zero x y = true)).
Proof.
  revert seen. induction l as [| z l IH]; intros seen Hin; [destruct Hin |].
  simpl. destruct (existsb (same_value_zero z) seen) eqn:Ez.
  - destruct Hin as [<- | Hin]; [| exact (IH seen Hin)].
    left. apply existsb_exists in Ez. exact Ez.
  - destruct Hin as [<- | Hin].
    + right. exists z. split; [left; reflexivity | left; reflexivity].
    + destruct (IH (z :: seen) Hin) as [[y [[<- | Hy] Hs]] | [y [Hy Hs]]].
      * right. exists z. split; [left; reflexivity | right; exact Hs].
      * left. exists y. split; assumption.
      * right. exists y. split; [right; exact Hy | exact Hs].
Qed.

(** [[...new Set(l)]], used for the HS codes of a shipment summary, keeps
    only elements of [l], no two of them equal under SameValueZero, and
    every element of [l] is kept or has a SameValueZero-equal element
    kept. *)
Theorem set_dedupe_spec (l : list jsval) :
  ForallOrdPairs (fun a b => same_value_zero a b = false) (set_dedupe [] l) /\
  (forall y, In y (set_dedupe [] l) -> In y l) /\
  (forall x, In x l ->
     exists y, In y (set_dedupe [] l) /\ (y = x \/ same_value_zero x y = true)).
Proof.
  split; [apply (set_dedupe_distinct [] l) |].
  split; [intros y; apply set_dedupe_incl |].
  intros x Hin. destruct (set_dedupe_covers [] l x Hin) as [[y [[] _]] | H]. exact H.
Qed.

Lemma list_ascii_of_string_app (s1 s2 : string) :
  list_ascii_of_string (s1 ++ s2) = (list_ascii_of_string s1 ++ list_ascii_of_string s2)%list.
Proof. induction s1 as [| c s1 IH]; simpl; [reflexivity | rewrite IH; reflexivity]. Qed.

Lemma hexdig_unreserved (n : nat) :
  (n < 16)%nat -> form_byte (hexdig n) = String (hexdig n) "".
Proof.
  intros Hn. do 16 (destruct n as [| n]; [reflexivity |]). lia.
Qed.

Lemma ascii_div16 (c : ascii) : (nat_of_ascii c / 16 < 16)%nat.
Proof.
  pose proof (nat_ascii_bounded c). apply Nat.Div0.div_lt_upper_bound. lia.
Qed.

Lemma form_byte_chars (c d : ascii) :
  In d (list_ascii_of_string (form_byte c)) ->
  form_byte d = String d "" \/ d = "+"%char \/ d = "%"%char.
Proof.
  unfold form_byte at 1. cbv zeta.
  destruct (_ || _ || _ || _ || _ || _ || _)%nat eqn:U.
  - simpl. intros [<- | []]. left. unfold form_byte. cbv zeta. rewrite U. reflexivity.
  - destruct (nat_of_ascii c =? 32)%nat.
    + simpl. intros [<- | []]. right. left. reflexivity.
    + cbn [list_ascii_of_string In]. intros [<- | [<- | [<- | []]]].
      * right. right. reflexivity.
      * left. apply hexdig_unreserved, ascii_div16.
      * left. apply hexdig_unreserved, Nat.mod_upper_bound. discriminate.
Qed.

Lemma form_encode_chars (s : string) (d : ascii) :
  In d (list_ascii_of_string (form_encode s)) ->
  form_byte d = String d "" \/ d = "+"%char \/ d = "%"%char.
Proof.
  induction s as [| c s IH]; simpl; [intros [] |].
  intros Hd. rewrite list_ascii_of_string_app in Hd.
  apply in_app_or in Hd as [Hd | Hd]; [exact (form_byte_chars c d Hd) | exact (IH Hd)].
Qed.

Lemma form_encode_no_sep (s : string) :
  ~ In "&"%char (list_ascii_of_string (form_encode s)) /\
  ~ In "="%char (list_ascii_of_string (form_encode s)).
Proof.
  split; intros Hin; destruct (form_encode_chars s _ Hin) as [E | [E | E]]; discriminate E.
Qed.

(** The form encoding [URLSearchParams] gives every key and value of the
    list queries only outputs characters it leaves unchanged, '+' and '%':
    never '&' or '=', so the query string separates pairs unambiguously. *)
Theorem form_encode_safe_chars (s : string) :
  (forall d, In d (list_ascii_of_string (form_encode s)) ->
             form_byte d = String d "" \/ d = "+"%char \/ d = "%"%char) /\
  ~ In "&"%char (list_ascii_of_string (form_encode s)) /\
  ~ In "="%char (list_ascii_of_string (form_encode s)).
Proof.
  split; [intros d; apply form_encode_chars | apply form_encode_no_sep].
Qed.

(** For a shipment found by a 2xx answer, getShipmentRates answers its "No
    rates available" text when the shipment's rates are falsy or have
    length 0, getShipmentLabels its "No labels available" text when neither
    the PNG nor the PDF label URL is truthy, and getShipmentLineItems its
    "No line items found" text when the line items are falsy or have
    length 0. *)
Theorem shipment_getters_nothing_available (e : env) (params : list (string * jsval))
  (remote : request -> fetch_result) (st : Z) (ra : option string) (d s : jsval) :
  (forall r, remote r = Responded st ra (BodyJson d)) ->
  response_ok st = true -> st <> 204 ->
  oget d "shipment" = s -> truthy s = true ->
  let id := to_str (assoc_get "id" params) in
  (negb (truthy (oget s "rates")) || is_zero (oget (oget s "rates") "length") = true ->
   snd (run remote (Shipments.getShipmentRates e params)) =
     Done ("No rates available for shipment " ++ id
           ++ ". The shipment may already have postage purchased.")) /\
  (truthy (oget s "postage_label_png_url") = false ->
   truthy (oget s "postage_label_pdf_url") = false ->
   snd (run remote (Shipments.getShipmentLabels e params)) =
     Done ("No labels available for shipment " ++ id
           ++ ". Postage may not have been purchased yet.")) /\
  (negb (truthy (oget s "line_items")) || is_zero (oget (oget s "line_items") "length")
     = true ->
   snd (run remote (Shipments.getShipmentLineItems e params)) =
     Done ("No line items found for shipment " ++ id ++ ".")).
Proof.
  intros Hr Hok H204 Hd Hs id.
  assert (Hst : (st =? 204) = false) by (apply Z.eqb_neq; exact H204).
  unfold Shipments.getShipmentRates, Shipments.getShipmentLabels,
    Shipments.getShipmentLineItems, client_get.
  repeat split; intros; rewrite (request_ok_bind _ _ _ _ _ _ st ra d Hr Hok), Hst;
    cbn [error data truthy negb]; rewrite Hd, Hs; cbn [negb].
  - rewrite H. reflexivity.
  - rewrite H, H0. reflexivity.
  - rewrite H. reflexivity.
Qed.

Lemma shipment_getters_nothing_available_witness :
  let s := JObj [("id", JStr "s1"); ("rates", JArr []); ("line_items", JNull)] in
  let remote := fun _ : request => Responded 200 None (BodyJson (JObj [("shipment", s)])) in
  let params := [("id", JStr "s1")] in
  let id := to_str (assoc_get "id" params) in
  snd (run remote (Shipments.getShipmentRates configured_env params)) =
    Done ("No rates available for shipment " ++ id
          ++ ". The shipment may already have postage purchased.") /\
  snd (run remote (Shipments.getShipmentLabels configured_env params)) =
    Done ("No labels available for shipment " ++ id
          ++ ". Postage may not have been purchased yet.") /\
  snd (run remote (Shipments.getShipmentLineItems configured_env params)) =
    Done ("No line items found for shipment " ++ id ++ ".").
Proof.
  destruct (shipment_getters_nothing_available configured_env [("id", JStr "s1")]
              (fun _ => Responded 200 None (BodyJson (JObj [("shipment",
                 JObj [("id", JStr "s1"); ("rates", JArr []); ("line_items", JNull)])])))
              200 None
              (JObj [("shipment",
                 JObj [("id", JStr "s1"); ("rates", JArr []); ("line_items", JNull)])])
              (JObj [("id", JStr "s1"); ("rates", JArr []); ("line_items", JNull)])
              (fun _ => eq_refl) eq_refl ltac:(discriminate) eq_refl eq_refl)
    as [H1 [H2 H3]].
  split; [exact (H1 eq_refl) | split; [exact (H2 eq_refl eq_refl) | exact (H3 eq_refl)]].
Defined.

